(** * git-client: the three Git hosting adapters (GitHub, GitLab, Bitbucket)

    A shallow embedding of [src/lib/github/index.ts], [src/lib/gitlab/index.ts]
    and [src/lib/bitbucket/index.ts].

    - JavaScript strings are modelled by [string] (sequences of 8-bit
      characters), optional values ([x?: string], [undefined]) by [option].
    - A statement either completes normally or throws: [completion].
    - A promise is represented by the way it settles: [promise].  An [async]
      function never throws at the call; whatever its body throws becomes the
      rejection of the promise it returns.  A [try] block only sees the
      rejection of a promise that is awaited inside it.
    - Outbound HTTP, the timer and the debug logger are effects on a [World]
      that records what was requested; the remote side is an oracle from the
      number of requests already sent and the request to its answer. *)

From Stdlib Require Import String Ascii List ZArith QArith Bool Lia.
From Stdlib Require Import Strings.Byte DecimalString.
Import ListNotations.

Close Scope Q_scope.
Local Open Scope nat_scope.
Local Open Scope list_scope.
Local Open Scope string_scope.

(** ** The JavaScript primitives the adapters use *)

Module Js.

(** [s.startsWith(p)] *)
Fixpoint startsWith (s p : string) {struct p} : bool :=
  match p, s with
  | EmptyString, _ => true
  | String _ _, EmptyString => false
  | String a p', String b s' => Ascii.eqb a b && startsWith s' p'
  end.

(** the characters of [s] from index [n] on *)
Fixpoint drop (n : nat) (s : string) : string :=
  match n, s with
  | O, _ => s
  | S _, EmptyString => EmptyString
  | S n', String _ s' => drop n' s'
  end.

(** [s.includes(p)]; also [s.match(/p/)] for a pattern of literal
    characters, which is non-null exactly when [p] occurs in [s]. *)
Fixpoint includes (s p : string) : bool :=
  startsWith s p
  || match s with
     | EmptyString => false
     | String _ s' => includes s' p
     end.

(** [s.replace(pat, rep)] for a string pattern: only the first occurrence of
    [pat], wherever it is, is replaced ([rep] has no [$] here). *)
Fixpoint replace (s pat rep : string) : string :=
  if startsWith s pat then rep ++ drop (String.length pat) s
  else match s with
       | EmptyString => EmptyString
       | String c s' => String c (replace s' pat rep)
       end.

(** [parts.join(sep)] *)
Fixpoint join (sep : string) (parts : list string) : string :=
  match parts with
  | [] => ""
  | [p] => p
  | p :: rest => p ++ sep ++ join sep rest
  end.

(** truthiness of a [string | undefined] *)
Definition truthy (v : option string) : bool :=
  match v with
  | Some s => negb (String.eqb s "")
  | None => false
  end.

(** [`${v}`] for a [string | undefined] *)
Definition template (v : option string) : string :=
  match v with
  | Some s => s
  | None => "undefined"
  end.

(** [`${n}`] for an integral number that the runtime prints with all its
    digits, as it does every safe integer (of magnitude below 2^53); from
    10^21 on the runtime prints an exponent form, which this does not
    follow. *)
Definition show (n : Z) : string := NilZero.string_of_int (Z.to_int n).

(** Line terminators, which [.] does not match (the two others, U+2028 and
    U+2029, are not 8-bit characters). *)
Definition isLineTerminator (c : ascii) : bool :=
  Ascii.eqb c "010"%char || Ascii.eqb c "013"%char.

(** The maximal runs of characters [.] can match. *)
Fixpoint lines (s : string) : list string :=
  match s with
  | EmptyString => [""]
  | String c s' =>
      if isLineTerminator c then "" :: lines s'
      else match lines s' with
           | l :: ls => String c l :: ls
           | [] => [String c ""]
           end
  end.

(** Splits one line at the last occurrence of [sep]: the two groups a
    pattern "anything, [sep], anything" captures there, the first group being
    greedy. *)
Fixpoint splitLast (sep line : string) : option (string * string) :=
  match line with
  | EmptyString => if startsWith "" sep then Some ("", "") else None
  | String c rest =>
      match splitLast sep rest with
      | Some (before, after) => Some (String c before, after)
      | None =>
          if startsWith line sep
          then Some ("", drop (String.length sep) line)
          else None
      end
  end.

Fixpoint firstSome {A B} (f : A -> option B) (l : list A) : option B :=
  match l with
  | [] => None
  | x :: l' => match f x with Some y => Some y | None => firstSome f l' end
  end.

(** [regex.test(s)] for a global regex "anything, [needle], anything" whose
    search starts at [lastIndex]: the match runs to the end of the first line
    at or after [lastIndex] that still holds [needle]; [lastIndex] becomes
    the end of the match, or 0 when there is none. *)
Fixpoint searchLines (needle : string) (ls : list string) (pos : nat) : option nat :=
  match ls with
  | [] => None
  | l :: rest =>
      if includes l needle then Some (pos + String.length l)
      else searchLines needle rest (pos + String.length l + 1)
  end.

Definition testGlobal (needle : string) (lastIndex : nat) (s : string) : bool * nat :=
  if Nat.ltb (String.length s) lastIndex then (false, 0)
  else match searchLines needle (lines (drop lastIndex s)) lastIndex with
       | Some e => (true, e)
       | None => (false, 0)
       end.

End Js.

(** ** Errors, completions and promises *)

(** The part of a failed HTTP response an adapter looks at:
    [err.response.header] and [err.response.text]. *)
Record ErrorResponse : Type := mkErrorResponse {
  header : list (string * string);
  text : string
}.

(** Modelled from the spec: the error values of [git.api] and
    [util/superagent-support], which are not among the sources.  A
    [ResponseError] is what the HTTP client raises for an answer with a
    failure status; [WebhookAlreadyExists] and [UnknownWebhookError] are
    built from a message and the error that caused them. *)
Inductive JsError : Type :=
| Error (message : string)
| TypeError (message : string)
| ResponseError (message : string) (status : Z) (response : ErrorResponse)
| WebhookAlreadyExists (message : string) (error : JsError)
| UnknownWebhookError (message : string) (error : JsError).

(** [err.message] *)
Definition message (err : JsError) : string :=
  match err with
  | Error m | TypeError m | ResponseError m _ _
  | WebhookAlreadyExists m _ | UnknownWebhookError m _ => m
  end.

(** [err.status] *)
Definition status (err : JsError) : option Z :=
  match err with
  | ResponseError _ st _ => Some st
  | _ => None
  end.

(** Modelled from the spec: the type guard [isResponseError] of
    [util/superagent-support]; it narrows an error to [ResponseError]. *)
Definition isResponseError (err : JsError) : bool :=
  match err with
  | ResponseError _ _ _ => true
  | _ => false
  end.

(** [obj[key]] on an object used as a dictionary of strings *)
Fixpoint lookup (key : string) (obj : list (string * string)) : option string :=
  match obj with
  | [] => None
  | (k, v) :: rest => if String.eqb k key then Some v else lookup key rest
  end.

Inductive completion (A : Type) : Type :=
| Normal (a : A)
| Throw (e : JsError).
Arguments Normal {A} a.
Arguments Throw {A} e.

Inductive promise (A : Type) : Type :=
| Resolved (a : A)
| Rejected (e : JsError).
Arguments Resolved {A} a.
Arguments Rejected {A} e.

(** The promise of an [async] function whose body completed with [c]. *)
Definition settle {A} (c : completion A) : promise A :=
  match c with
  | Normal a => Resolved a
  | Throw e => Rejected e
  end.

(** The promise of an [async] function whose body completed with [c], when
    what it returns is itself a promise: the returned promise is adopted. *)
Definition adopt {A} (c : completion (promise A)) : promise A :=
  match c with
  | Normal p => p
  | Throw e => Rejected e
  end.

(** ** Shared value types *)

(** Modelled from the spec: [TypedGitRepoConfig] of [git.model]; every field
    is required but [host] and [branch]. *)
Record TypedGitRepoConfig : Type := mkConfig {
  owner : string;
  repo : string;
  protocol : string;
  host : option string;
  username : string;
  password : string;
  branch : option string
}.

(** Modelled from the spec: [PullRequest] of [git.api]. *)
Record PullRequest : Type := mkPullRequest {
  pullNumber : Z;
  sourceBranch : string;
  targetBranch : string
}.

(** Modelled from the spec: [CreatePullRequestOptions] of [git.api]. *)
Record CreatePullRequestOptions : Type := mkCreatePullRequestOptions {
  cp_title : string;
  cp_sourceBranch : string;
  cp_targetBranch : string;
  cp_maintainer_can_modify : bool;
  cp_draft : option bool
}.

(** Modelled from the spec: [MergePullRequestOptions] of [git.api]. *)
Record MergePullRequestOptions : Type := mkMergePullRequestOptions {
  mp_pullNumber : Z;
  mp_title : string;
  mp_message : string;
  mp_method : string
}.

(** Modelled from the spec: [CreateWebhook] of [git.api], all fields
    optional. *)
Record CreateWebhook : Type := mkCreateWebhook {
  webhookUrl : option string;
  jenkinsUrl : option string;
  jenkinsUser : option string;
  jenkinsPassword : option string;
  jobName : option string
}.

(** A file descriptor, as [listFiles] returns it and [getFileContents]
    takes it. *)
Record FileDescriptor : Type := mkFileDescriptor {
  fd_path : string;
  fd_url : option string
}.

(** What [getFileContents] returns: [string | Buffer]. *)
Inductive Contents : Type :=
| OfBuffer (bytes : list byte)
| OfString (s : string).

(** The bytes of returned contents (a string counts by its characters). *)
Definition bytesOf (c : Contents) : list byte :=
  match c with
  | OfBuffer bs => bs
  | OfString s => list_byte_of_string s
  end.

(** ** [new Buffer(content, 'base64')]

    The runtime's decoder: the characters of the standard and of the URL-safe
    alphabet carry six bits each, any other character is skipped, [=] ends
    the input, and every complete byte is emitted. *)

Module Buffer.

Definition unbase64 (c : ascii) : option Z :=
  let n := Z.of_N (N_of_ascii c) in
  if (65 <=? n)%Z && (n <=? 90)%Z then Some (n - 65)%Z
  else if (97 <=? n)%Z && (n <=? 122)%Z then Some (n - 71)%Z
  else if (48 <=? n)%Z && (n <=? 57)%Z then Some (n + 4)%Z
  else if (n =? 43)%Z || (n =? 45)%Z then Some 62%Z
  else if (n =? 47)%Z || (n =? 95)%Z then Some 63%Z
  else None.

Fixpoint sextets (s : string) : list Z :=
  match s with
  | EmptyString => []
  | String c s' =>
      if Ascii.eqb c "="%char then []
      else match unbase64 c with
           | Some v => v :: sextets s'
           | None => sextets s'
           end
  end.

Definition byteOfZ (z : Z) : byte :=
  match Byte.of_N (Z.to_N (Z.land z 255)) with
  | Some b => b
  | None => x00
  end.

Definition byte1 (hi lo : Z) : byte :=
  byteOfZ (Z.lor (Z.shiftl (Z.land hi 63) 2) (Z.shiftr (Z.land lo 48) 4)).

Definition byte2 (hi lo : Z) : byte :=
  byteOfZ (Z.lor (Z.shiftl (Z.land hi 15) 4) (Z.shiftr (Z.land lo 60) 2)).

Definition byte3 (hi lo : Z) : byte :=
  byteOfZ (Z.lor (Z.shiftl (Z.land hi 3) 6) (Z.land lo 63)).

Fixpoint decodeGroups (l : list Z) : list byte :=
  match l with
  | a :: b :: c :: d :: rest =>
      byte1 a b :: byte2 b c :: byte3 c d :: decodeGroups rest
  | [a; b; c] => [byte1 a b; byte2 b c]
  | [a; b] => [byte1 a b]
  | _ => []
  end.

Definition fromBase64 (content : string) : list byte :=
  decodeGroups (sextets content).

End Buffer.

(** ** The world outside: HTTP, timer, logger, random numbers *)

Inductive Method : Type := GET | POST | PUT.

(** A request as the HTTP client is asked to send it; [D] is the type of the
    data an adapter sends. *)
Record Request (D : Type) : Type := mkRequest {
  req_method : Method;
  req_url : option string;
  req_auth : option (string * string);
  req_headers : list (string * string);
  req_accept : option string;
  req_data : option D
}.
Arguments mkRequest {D}.
Arguments req_method {D}.
Arguments req_url {D}.
Arguments req_auth {D}.
Arguments req_headers {D}.
Arguments req_accept {D}.
Arguments req_data {D}.

(** A successful answer; [B] is the type the adapter reads the body at. *)
Record Response (B : Type) : Type := mkResponse {
  body : B;
  res_text : string
}.
Arguments mkResponse {B}.
Arguments body {B}.
Arguments res_text {B}.

(** What is handed to [logger.debug]. *)
Inductive LogEntry : Type :=
| GotSecondaryRateLimit (name : string) (time : option Q)
| ErrorCallingApi (name : string) (err : JsError) (isResp : bool) (st : option Z).

Record World (D : Type) : Type := mkWorld {
  requests : list (Request D);
  timers : list (option Q);
  debugLog : list LogEntry;
  randomCalls : nat
}.
Arguments mkWorld {D}.
Arguments requests {D}.
Arguments timers {D}.
Arguments debugLog {D}.
Arguments randomCalls {D}.

Definition emptyWorld {D} : World D := mkWorld [] [] [] 0.

(** The remote side: its answer to a request, given how many requests were
    sent before it.  A failure status, or no answer at all, is a [Throw]. *)
Definition Remote (D B : Type) : Type :=
  nat -> Request D -> completion (Response B).

Section Effects.

Context {D : Type}.

(** A computation that may throw and acts on the world. *)
Definition M (A : Type) : Type := World D -> completion A * World D.

(** The call of an [async] function: it gives a promise and never throws. *)
Definition Async (A : Type) : Type := World D -> promise A * World D.

Definition ret {A} (a : A) : M A := fun w => (Normal a, w).

Definition throw {A} (e : JsError) : M A := fun w => (Throw e, w).

Definition bind {A B} (c : M A) (k : A -> M B) : M B :=
  fun w =>
    match c w with
    | (Normal a, w') => k a w'
    | (Throw e, w') => (Throw e, w')
    end.

(** [try { c } catch (err) { h err }] *)
Definition tryCatch {A} (c : M A) (h : JsError -> M A) : M A :=
  fun w =>
    match c w with
    | (Normal a, w') => (Normal a, w')
    | (Throw e, w') => h e w'
    end.

(** [async () => { body }] *)
Definition async {A} (body : M A) : Async A :=
  fun w => let (c, w') := body w in (settle c, w').

(** [await call]: a rejection is thrown where the [await] stands. *)
Definition await {A} (call : Async A) : M A :=
  fun w =>
    match call w with
    | (Resolved a, w') => (Normal a, w')
    | (Rejected e, w') => (Throw e, w')
    end.

(** [call] as an expression that is not awaited: its value is the promise. *)
Definition promiseOf {A} (call : Async A) : M (promise A) :=
  fun w => let (p, w') := call w in (Normal p, w').

(** Sending a request (awaiting or returning the client's request object). *)
Definition send {B} (remote : Remote D B) (req : Request D) : Async (Response B) :=
  fun w =>
    (settle (remote (List.length (requests w)) req),
     mkWorld (requests w ++ [req])%list (timers w) (debugLog w) (randomCalls w)).

(** Modelled from the spec: [timer] of [lib/timer], which is not among the
    sources: it sleeps for [time] milliseconds. *)
Definition timer (time : option Q) : Async unit :=
  fun w =>
    (Resolved tt,
     mkWorld (requests w) (timers w ++ [time])%list (debugLog w) (randomCalls w)).

(** [this.logger.debug(...)] *)
Definition debug (entry : LogEntry) : M unit :=
  fun w =>
    (Normal tt,
     mkWorld (requests w) (timers w) (debugLog w ++ [entry])%list (randomCalls w)).

(** [Math.random()], from an oracle for the successive draws. *)
Definition random (draws : nat -> Q) : M Q :=
  fun w =>
    (Normal (draws (randomCalls w)),
     mkWorld (requests w) (timers w) (debugLog w) (S (randomCalls w))).

End Effects.

Declare Scope js_scope.
Delimit Scope js_scope with js.
Notation "x <- c ;; k" := (bind c (fun x => k))
  (at level 61, c at next level, right associativity) : js_scope.
Notation "c ;;; k" := (bind c (fun _ => k))
  (at level 61, right associativity) : js_scope.

(** ** The GitHub-family adapter ([lib/github/index.ts]) *)

Module Github.

Local Open Scope js_scope.

Inductive GithubEvent : Type := push | pullRequest.

(** The string an enum member stands for. *)
Definition eventValue (e : GithubEvent) : string :=
  match e with
  | push => "push"
  | pullRequest => "pull_request"
  end.

Inductive GitHookUrlVerification : Type := performed | notPerformed.

Definition verificationValue (v : GitHookUrlVerification) : string :=
  match v with
  | performed => "0"
  | notPerformed => "1"
  end.

(** Modelled from the spec: [GitHookContentType] and [GitHookConfig] of
    [git.model], by the members and fields the adapter uses. *)
Inductive GitHookContentType : Type := json.

Record GitHookConfig : Type := mkGitHookConfig {
  url : string;
  content_type : GitHookContentType;
  insecure_ssl : GitHookUrlVerification
}.

Record GitHookData : Type := mkGitHookData {
  name : string;
  active : bool;
  events : list GithubEvent;
  config : GitHookConfig
}.

Record Tree : Type := mkTree {
  path : string;
  mode : string;
  type : string;
  size : option Z;
  sha : string;
  tree_url : string
}.

Record TreeResponse : Type := mkTreeResponse {
  tr_sha : string;
  tr_url : string;
  tree : list Tree;
  truncated : option bool
}.

Inductive Encoding : Type := base64.

Record FileResponse : Type := mkFileResponse {
  content : string;
  encoding : Encoding;
  file_url : string;
  file_sha : string;
  file_size : Z;
  node_id : string
}.

Record RepoResponse : Type := mkRepoResponse {
  default_branch : string
}.

(** The parts of the untyped answers of the pulls and hooks resources that
    the adapter reads. *)
Record Ref : Type := mkRef { ref : string }.

Record PullBody : Type := mkPullBody {
  number : Z;
  head : Ref;
  base : Ref
}.

Record MessageBody : Type := mkMessageBody { body_message : string }.

Record HookBody : Type := mkHookBody { hook_id : string }.

(** What the adapter sends. *)
Inductive Data : Type :=
| PullData (title head_ base_ : string) (maintainer_can_modify draft : bool)
| MergeData (commit_title commit_message merge_method : string)
| EmptyData
| HookData (d : GitHookData).

(** [new Buffer(content, encoding)] *)
Definition newBuffer (content : string) (encoding : Encoding) : list byte :=
  match encoding with
  | base64 => Buffer.fromBase64 content
  end.

(** The two concrete classes differ in [getBaseUrl] only. *)
Inductive Variant : Type := Github | GithubEnterprise.

Section Adapter.

Variable variant : Variant.
Variable this_config : TypedGitRepoConfig.

(** The successive values of [Math.random()], and the conversion of a string
    to a number that [retryAfter * 1000] applies ([None] is [NaN]). *)
Variable draws : nat -> Q.
Variable toNumber : string -> option Q.

Definition getBaseUrl : string :=
  match variant with
  | Github =>
      "https://api.github.com/repos/" ++ owner this_config ++ "/" ++ repo this_config
  | GithubEnterprise =>
      protocol this_config ++ "://" ++ Js.template (host this_config)
      ++ "/api/v3/repos/" ++ owner this_config ++ "/" ++ repo this_config
  end.

Definition userAgent : string * string :=
  ("User-Agent", username this_config ++ " via ibm-garage-cloud cli").

Definition get {B} (remote : Remote Data B) (uri : string) : Async (Response B) :=
  let url := if Js.startsWith uri "http" then uri else getBaseUrl ++ uri in
  send remote
    (mkRequest GET (Some url) (Some (username this_config, password this_config))
       [userAgent] (Some "application/vnd.github.v3+json") None).

Definition post {B} (remote : Remote Data B) (uri : string) (data : Data)
  : Async (Response B) :=
  send remote
    (mkRequest POST (Some (getBaseUrl ++ uri))
       (Some (username this_config, password this_config))
       [userAgent] (Some "application/vnd.github.v3+json") (Some data)).

Definition put {B} (remote : Remote Data B) (uri : string) (data : Data)
  : Async (Response B) :=
  send remote
    (mkRequest PUT (Some (getBaseUrl ++ uri))
       (Some (username this_config, password this_config))
       [userAgent] (Some "application/vnd.github.v3+json") (Some data)).

Definition listFiles (remote : Remote Data TreeResponse) : Async (list Tree) :=
  async (
    response <- await (get remote ("/git/trees/" ++ Js.template (branch this_config))) ;;
    let treeResponse := body response in
    ret (filter (fun tree => String.eqb (type tree) "blob") (tree treeResponse))).

Definition getFileContents (remote : Remote Data FileResponse)
  (fileDescriptor : FileDescriptor) : Async Contents :=
  async (
    response <- await (get remote
                  (if Js.truthy (fd_url fileDescriptor)
                   then Js.template (fd_url fileDescriptor)
                   else "/contents/" ++ fd_path fileDescriptor)) ;;
    let fileResponse := body response in
    ret (OfBuffer (newBuffer (content fileResponse) (encoding fileResponse)))).

Definition getDefaultBranch (remote : Remote Data RepoResponse) : Async string :=
  async (
    response <- await (get remote "") ;;
    let treeResponse := body response in
    ret (default_branch treeResponse)).

(** [retryAfter * 1000 + (1000 * Math.random())] where [retryAfter] is
    [err.response.header['Retry-After'] || 30].  The sum is taken in exact
    rationals; the runtime's is a sum of doubles, which is the same number
    whenever no rounding occurs. *)
Definition retryAfter (response : ErrorResponse) : option Q :=
  let h := lookup "Retry-After" (header response) in
  if Js.truthy h then toNumber (Js.template h) else Some (30 # 1)%Q.

Definition waitingTime (response : ErrorResponse) (r : Q) : option Q :=
  match retryAfter response with
  | Some s => Some (s * (1000 # 1) + (1000 # 1) * r)%Q
  | None => None
  end.

(** The loop of [exec].  [f] is the function passed in: calling it gives a
    promise, or throws.  [lastIndex] is the state of [rateLimitRegex], which
    is created once per call of [exec] with the global flag.  The [try]
    block is [return f()]: the promise is returned as it is, not awaited, so
    the handler runs only when the call [f()] itself throws. *)
Fixpoint execLoop {T} (fuel : nat) (f : @M Data (promise T)) (name : string)
  (lastIndex : nat) (w : World Data) : option (completion (promise T) * World Data) :=
  match fuel with
  | O => None
  | S fuel' =>
      match f w with
      | (Normal p, w1) => Some (Normal p, w1)
      | (Throw err, w1) =>
          let rethrow :=
            (debug (ErrorCallingApi name err (isResponseError err) (status err)) ;;;
             throw err) in
          match err with
          | ResponseError msg st response =>
              if (st =? 403)%Z then
                let (matched, lastIndex') :=
                  Js.testGlobal "secondary rate limit" lastIndex msg in
                if matched then
                  match (r <- random draws ;;
                         let time := waitingTime response r in
                         debug (GotSecondaryRateLimit name time) ;;;
                         await (timer time)) w1 with
                  | (Normal _, w2) => execLoop fuel' f name lastIndex' w2
                  | (Throw e, w2) => Some (Throw e, w2)
                  end
                else Some (rethrow w1)
              else Some (rethrow w1)
          | _ => Some (rethrow w1)
          end
      end
  end.

(** [exec] is [async]: its promise adopts the promise the loop returns.
    [None] stands for a loop that is still running when the fuel is spent. *)
Definition exec {T} (fuel : nat) (f : @M Data (promise T)) (name : string)
  (w : World Data) : option (promise T * World Data) :=
  match execLoop fuel f name 0 w with
  | Some (c, w') => Some (adopt c, w')
  | None => None
  end.

Definition getPullRequest (fuel : nat) (remote : Remote Data PullBody)
  (pullNumber : Z) : World Data -> option (promise PullRequest * World Data) :=
  let f : Async PullRequest :=
    async (
      response <- await (get remote ("/pulls/" ++ Js.show pullNumber)) ;;
      ret (mkPullRequest
             (number (body response))
             (ref (head (body response)))
             (ref (base (body response))))) in
  exec fuel (promiseOf f) "getPullRequest".

Definition createPullRequest (fuel : nat) (remote : Remote Data PullBody)
  (options : CreatePullRequestOptions)
  : World Data -> option (promise PullRequest * World Data) :=
  let f : Async PullRequest :=
    async (
      response <- await (post remote "/pulls"
                    (PullData (cp_title options) (cp_sourceBranch options)
                       (cp_targetBranch options) (cp_maintainer_can_modify options)
                       (match cp_draft options with Some d => d | None => false end))) ;;
      ret (mkPullRequest
             (number (body response))
             (cp_sourceBranch options)
             (cp_targetBranch options))) in
  exec fuel (promiseOf f) "createPullRequest".

Definition mergePullRequest (fuel : nat) (remote : Remote Data MessageBody)
  (options : MergePullRequestOptions)
  : World Data -> option (promise string * World Data) :=
  let f : Async string :=
    async (
      response <- await (put remote ("/pulls/" ++ Js.show (mp_pullNumber options) ++ "/merge")
                    (MergeData (mp_title options) (mp_message options) (mp_method options))) ;;
      ret (body_message (body response))) in
  exec fuel (promiseOf f) "mergePullRequest".

Definition updatePullRequestBranch (fuel : nat) (remote : Remote Data MessageBody)
  (pullNumber : Z) : World Data -> option (promise string * World Data) :=
  let f : Async string :=
    async (
      response <- await (put remote ("/pulls/" ++ Js.show pullNumber ++ "/update-branch")
                    EmptyData) ;;
      ret (body_message (body response))) in
  exec fuel (promiseOf f) "updatePullRequestBranch".

Definition buildWebhookData (options : CreateWebhook) : GitHookData :=
  let url :=
    if Js.truthy (webhookUrl options) then Js.template (webhookUrl options)
    else Js.template (jenkinsUrl options) ++ "/github-webhook/" in
  let config :=
    {| url := url; content_type := json; insecure_ssl := performed |} in
  let pushGitHook :=
    {| name := "web"; events := [push]; active := true; config := config |} in
  pushGitHook.

Definition createWebhook (remote : Remote Data HookBody) (options : CreateWebhook)
  : Async string :=
  async (
    tryCatch
      (response <- await (post remote "/hooks" (HookData (buildWebhookData options))) ;;
       ret (hook_id (body response)))
      (fun err =>
         match err with
         | ResponseError _ _ response =>
             if Js.includes (text response) "Hook already exists"
             then throw (WebhookAlreadyExists "Webhook already exists on repository" err)
             else throw (UnknownWebhookError "Unknown error creating webhook" err)
         | _ => throw (UnknownWebhookError (message err) err)
         end)).

Definition getRef : string := "refs/heads/" ++ Js.template (branch this_config).

End Adapter.

End Github.

(** ** The GitLab adapter ([lib/gitlab/index.ts]) *)

Module Gitlab.

Local Open Scope js_scope.

Record GitlabHookData : Type := mkGitlabHookData {
  id : string;
  url : string;
  push_events : option bool;
  enable_ssl_verification : option bool;
  token : option string
}.

Record GitlabParams : Type := mkGitlabParams {
  p_owner : string;
  p_repo : string;
  p_jenkinsUrl : option string;
  p_jenkinsUser : option string;
  p_jenkinsPassword : option string;
  p_jobName : option string;
  p_webhookUrl : option string
}.

Record Tree : Type := mkTree {
  tree_id : string;
  name : string;
  type : string;
  path : string;
  mode : string
}.

Inductive Encoding : Type := base64.

Record FileResponse : Type := mkFileResponse {
  file_name : string;
  file_path : string;
  size : Z;
  encoding : Encoding;
  content : string;
  content_sha256 : string;
  ref : string;
  blob_id : string;
  commit_id : string;
  last_commit_id : string
}.

Record Branch : Type := mkBranch {
  branch_name : string;
  default : bool
}.

Record HookBody : Type := mkHookBody { hook_id : string }.

Definition newBuffer (content : string) (encoding : Encoding) : list byte :=
  match encoding with
  | base64 => Buffer.fromBase64 content
  end.

(** Modelled from the spec: [first] of [util/first], which is not among the
    sources: the first element, or [undefined] when there is none. *)
Definition first {A} (l : list A) : option A :=
  match l with
  | x :: _ => Some x
  | [] => None
  end.

(** [regex.exec(jenkinsUrl)] for the pattern "anything, [://], anything,
    slashes": the match starts at the first line that holds a [://]; the
    first group runs to the last [://] of that line and the second group takes
    the rest of the line, trailing slashes included, both being greedy. *)
Definition execUrlPattern (jenkinsUrl : string) : option (string * string) :=
  Js.firstSome (Js.splitLast "://") (Js.lines jenkinsUrl).

Section Adapter.

Variable this_config : TypedGitRepoConfig.

Definition getBaseUrl : string :=
  protocol this_config ++ "://" ++ Js.template (host this_config)
  ++ "/api/v4/projects/" ++ owner this_config ++ "%2F" ++ repo this_config.

Definition buildUrl (url : string) (params : list string) : string :=
  let paramString :=
    Js.join "&" (filter (fun p => negb (String.eqb p "")) params) in
  let values :=
    if negb (String.eqb paramString "") then [url; paramString] else [url] in
  Js.join "?" values.

Definition branchParam : string :=
  if Js.truthy (branch this_config)
  then "ref=" ++ Js.template (branch this_config)
  else "".

Definition headers : list (string * string) :=
  [("Private-Token", password this_config);
   ("User-Agent", username this_config ++ " via ibm-garage-cloud cli")].

Definition listFiles (remote : Remote GitlabHookData (list Tree))
  : Async (list FileDescriptor) :=
  async (
    response <- await (send remote
                  (mkRequest GET
                     (Some (buildUrl (getBaseUrl ++ "/repository/tree")
                              [branchParam; "per_page=1000"]))
                     None headers (Some "application/json") None)) ;;
    let treeResponse := body response in
    ret (map (fun tree =>
                {| fd_path := Js.replace (path tree) "files/" "";
                   fd_url := Some (getBaseUrl ++ "/repository/" ++ path tree) |})
           (filter (fun tree => String.eqb (type tree) "blob") treeResponse))).

Definition getFileContents (remote : Remote GitlabHookData FileResponse)
  (fileDescriptor : FileDescriptor) : Async Contents :=
  async (
    response <- await (send remote
                  (mkRequest GET (fd_url fileDescriptor)
                     None headers (Some "application/json") None)) ;;
    let fileResponse := body response in
    ret (OfBuffer (newBuffer (content fileResponse) (encoding fileResponse)))).

Definition getPullRequest (pullNumber : Z) : @Async GitlabHookData PullRequest :=
  async (throw (Error "Method not implemented: getPullRequest")).

Definition createPullRequest (options : CreatePullRequestOptions)
  : @Async GitlabHookData PullRequest :=
  async (throw (Error "Method not implemented: createPullRequest")).

Definition mergePullRequest (options : MergePullRequestOptions)
  : @Async GitlabHookData string :=
  async (throw (Error "Method not implemented: mergePullRequest")).

Definition updatePullRequestBranch (pullNumber : Z) : @Async GitlabHookData string :=
  async (throw (Error "Method not implemented: updatePullRequestBranch")).

Definition getDefaultBranch (remote : Remote GitlabHookData (list Branch))
  : Async (option string) :=
  async (
    response <- await (send remote
                  (mkRequest GET (Some (getBaseUrl ++ "/repository/branches"))
                     None headers (Some "application/json") None)) ;;
    let branchResponse := body response in
    ret (first (map branch_name (filter default branchResponse)))).

(** [urlParts[1]] on a pattern that did not match reads a property of
    [null]: a [TypeError], with the text the engine gives it. *)
Definition buildWebhookData (params : GitlabParams) : completion GitlabHookData :=
  let jenkinsUrl :=
    match p_jenkinsUrl params with
    | Some u => u
    | None => "https://jenkins.local/"
    end in
  match execUrlPattern jenkinsUrl with
  | None => Throw (TypeError "Cannot read properties of null (reading '1')")
  | Some (protocol, host) =>
      let credentials :=
        if Js.truthy (p_jenkinsUser params) && Js.truthy (p_jenkinsPassword params)
        then Js.template (p_jenkinsUser params) ++ ":"
             ++ Js.template (p_jenkinsPassword params) ++ "@"
        else "" in
      let url :=
        if Js.truthy (p_webhookUrl params) then Js.template (p_webhookUrl params)
        else protocol ++ "://" ++ credentials ++ host
             ++ "/project/" ++ Js.template (p_jobName params) in
      Normal {| id := owner this_config ++ "%2F" ++ repo this_config;
                url := url;
                push_events := Some true;
                enable_ssl_verification := Some (String.eqb protocol "https");
                token := None |}
  end.

(** [Object.assign({}, this.config, options)], read at [GitlabParams]. *)
Definition assignParams (options : CreateWebhook) : GitlabParams :=
  {| p_owner := owner this_config;
     p_repo := repo this_config;
     p_jenkinsUrl := jenkinsUrl options;
     p_jenkinsUser := jenkinsUser options;
     p_jenkinsPassword := jenkinsPassword options;
     p_jobName := jobName options;
     p_webhookUrl := webhookUrl options |}.

Definition createWebhook (remote : Remote GitlabHookData HookBody)
  (options : CreateWebhook) : Async string :=
  async (
    tryCatch
      (data <- (fun w => (buildWebhookData (assignParams options), w)) ;;
       response <- await (send remote
                     (mkRequest POST (Some (getBaseUrl ++ "/hooks"))
                        None headers (Some "application/json") (Some data))) ;;
       ret (hook_id (body response)))
      (fun err =>
         match err with
         | ResponseError _ _ response =>
             if Js.includes (text response) "Hook already exists"
             then throw (WebhookAlreadyExists "Webhook already exists on repository" err)
             else throw (UnknownWebhookError "Unknown error creating webhook" err)
         | _ => throw (UnknownWebhookError (message err) err)
         end)).

Definition getRef : string := "refs/heads/" ++ Js.template (branch this_config).

End Adapter.

End Gitlab.

(** ** The Bitbucket adapter ([lib/bitbucket/index.ts]) *)

Module Bitbucket.

Local Open Scope js_scope.

Inductive BitbucketEvent : Type := push.

Definition eventValue (e : BitbucketEvent) : string :=
  match e with
  | push => "repo:push"
  end.

(** [url] is whatever [webhookUrl] is, [undefined] included. *)
Record BitbucketHookData : Type := mkBitbucketHookData {
  description : string;
  url : option string;
  active : bool;
  events : list BitbucketEvent
}.

Record Href : Type := mkHref { href : string }.

Record Links : Type := mkLinks {
  self : Href;
  meta : Href
}.

(** A tree entry (its opaque [commit] object is never read and is left
    out). *)
Record TreeEntry : Type := mkTreeEntry {
  path : string;
  type : string;
  mimetype : option string;
  size : option Z;
  links : Links
}.

Record SrcResponse : Type := mkSrcResponse {
  page : Z;
  next : option string;
  previous : option string;
  pagelen : Z;
  values : list TreeEntry
}.

Record BranchResponse : Type := mkBranchResponse {
  branch_id : string;
  displayId : string;
  branch_type : string;
  latestCommit : string;
  latestChangeset : string;
  isDefault : bool
}.

Record HookBody : Type := mkHookBody { hook_id : string }.

Section Adapter.

Variable this_config : TypedGitRepoConfig.

Definition getBaseUrl : string :=
  protocol this_config ++ "://api.bitbucket.org/2.0/repositories/"
  ++ owner this_config ++ "/" ++ repo this_config.

Definition userAgent : string * string :=
  ("User-Agent", username this_config ++ " via ibm-garage-cloud cli").

Definition getPullRequest (pullNumber : Z) : @Async BitbucketHookData PullRequest :=
  async (throw (Error "Method not implemented: getPullRequest")).

Definition createPullRequest (options : CreatePullRequestOptions)
  : @Async BitbucketHookData PullRequest :=
  async (throw (Error "Method not implemented: createPullRequest")).

Definition mergePullRequest (options : MergePullRequestOptions)
  : @Async BitbucketHookData string :=
  async (throw (Error "Method not implemented: mergePullRequest")).

Definition updatePullRequestBranch (pullNumber : Z)
  : @Async BitbucketHookData string :=
  async (throw (Error "Method not implemented: updatePullRequestBranch")).

Definition listFiles (remote : Remote BitbucketHookData SrcResponse)
  : Async (list FileDescriptor) :=
  async (
    response <- await (send remote
                  (mkRequest GET (Some (getBaseUrl ++ "/src?pagelen=100"))
                     (Some (username this_config, password this_config))
                     [userAgent] (Some "application/json") None)) ;;
    let fileResponse := body response in
    ret (map (fun s => {| fd_path := path s; fd_url := Some (href (self (links s))) |})
           (filter (fun s => String.eqb (type s) "commit_file") (values fileResponse)))).

(** The answer's text is returned as it is. *)
Definition getFileContents {B} (remote : Remote BitbucketHookData B)
  (fileDescriptor : FileDescriptor) : Async Contents :=
  async (
    response <- await (send remote
                  (mkRequest GET (fd_url fileDescriptor)
                     (Some (username this_config, password this_config))
                     [userAgent] None None)) ;;
    ret (OfString (res_text response))).

Definition getDefaultBranch (remote : Remote BitbucketHookData BranchResponse)
  : Async string :=
  async (
    response <- await (send remote
                  (mkRequest GET (Some (getBaseUrl ++ "/branches/default"))
                     (Some (username this_config, password this_config))
                     [userAgent] None None)) ;;
    let branchResponse := body response in
    ret (displayId branchResponse)).

Definition buildWebhookData (options : CreateWebhook) : BitbucketHookData :=
  {| description := "Webhook";
     url := webhookUrl options;
     active := true;
     events := [push] |}.

Definition createWebhook (remote : Remote BitbucketHookData HookBody)
  (options : CreateWebhook) : Async string :=
  async (
    tryCatch
      (response <- await (send remote
                     (mkRequest POST (Some (getBaseUrl ++ "/hooks"))
                        (Some (username this_config, password this_config))
                        [userAgent] (Some "application/json")
                        (Some (buildWebhookData options)))) ;;
       ret (hook_id (body response)))
      (fun err =>
         match err with
         | ResponseError _ _ response =>
             if Js.includes (text response) "Hook already exists"
             then throw (WebhookAlreadyExists "Webhook already exists on repository" err)
             else throw (UnknownWebhookError "Unknown error creating webhook" err)
         | _ => throw (UnknownWebhookError (message err) err)
         end)).

(** [this.config.branch], which may be [undefined]. *)
Definition getRef : option string := branch this_config.

End Adapter.

End Bitbucket.

(** The reading of a string of decimal digits as a number; it stands for the
    runtime's conversion in the runs below. *)
Definition decimalToNumber (s : string) : option Q :=
  match NilZero.int_of_string s with
  | Some d => Some (inject_Z (Z.of_int d))
  | None => None
  end.

(** The condition under which the handler of [exec] waits and goes round
    again, as tested on the first failure of a call: a response error of
    status 403 whose message matches the rate-limit pattern. *)
Definition isSecondaryRateLimit (err : JsError) : bool :=
  match err with
  | ResponseError msg st _ =>
      (st =? 403)%Z && fst (Js.testGlobal "secondary rate limit" 0 msg)
  | _ => false
  end.

(** How a failure [cause] of webhook creation is to be reported: as
    [WebhookAlreadyExists] when the cause is a response error whose body text
    holds "Hook already exists", as [UnknownWebhookError] otherwise, the
    cause being carried along in both. *)
Inductive WebhookFailure (cause : JsError) : JsError -> Prop :=
| AlreadyExists (m : string) (st : Z) (r : ErrorResponse) :
    cause = ResponseError m st r ->
    Js.includes (text r) "Hook already exists" = true ->
    WebhookFailure cause
      (WebhookAlreadyExists "Webhook already exists on repository" cause)
| UnknownFailure (msg : string) :
    (forall m st r, cause = ResponseError m st r ->
                    Js.includes (text r) "Hook already exists" = false) ->
    WebhookFailure cause (UnknownWebhookError msg cause).

(** The handler of [createWebhook] is the same text in the three adapters. *)
Local Abbreviation webhookHandler :=
  (fun err =>
     match err return M string with
     | ResponseError _ _ response =>
         if Js.includes (text response) "Hook already exists"
         then throw (WebhookAlreadyExists "Webhook already exists on repository" err)
         else throw (UnknownWebhookError "Unknown error creating webhook" err)
     | _ => throw (UnknownWebhookError (message err) err)
     end).

(** A string without a line terminator. *)
Fixpoint singleLine (s : string) : bool :=
  match s with
  | EmptyString => true
  | String c s' => negb (Js.isLineTerminator c) && singleLine s'
  end.

(** The Jenkins URL the GitLab adapter works from: the one given, or its
    default. *)
Definition jenkinsUrlOrDefault (options : CreateWebhook) : string :=
  match jenkinsUrl options with
  | Some j => j
  | None => "https://jenkins.local/"
  end.

(** The credentials part of a derived GitLab hook URL: [user:password@] when
    both are given and not empty, nothing otherwise. *)
Definition credentialsPart (options : CreateWebhook) : string :=
  match jenkinsUser options, jenkinsPassword options with
  | Some u, Some p =>
      if String.eqb u "" || String.eqb p "" then "" else u ++ ":" ++ p ++ "@"
  | _, _ => ""
  end.

(** The transfer encoding a vendor declares for the content of a file: the
    answers of GitHub and GitLab carry an [encoding] field, which says
    base64; Bitbucket serves the content raw, with no encoding declared. *)
Inductive TransferEncoding : Type := DeclaredBase64 | DeclaredNone.

Definition githubDeclares (answer : Github.FileResponse) : TransferEncoding :=
  match Github.encoding answer with
  | Github.base64 => DeclaredBase64
  end.

Definition gitlabDeclares (answer : Gitlab.FileResponse) : TransferEncoding :=
  match Gitlab.encoding answer with
  | Gitlab.base64 => DeclaredBase64
  end.

(** The bytes a payload stands for under a declared transfer encoding. *)
Definition decoded (declared : TransferEncoding) (payload : string) : list byte :=
  match declared with
  | DeclaredBase64 => Buffer.fromBase64 payload
  | DeclaredNone => list_byte_of_string payload
  end.

(** A string whose last character is a slash. *)
Fixpoint endsWithSlash (s : string) : bool :=
  match s with
  | EmptyString => false
  | String c EmptyString => Ascii.eqb c "/"%char
  | String _ s' => endsWithSlash s'
  end.

(** The options with [jenkinsUrl] set. *)
Definition withJenkinsUrl (options : CreateWebhook) (url : string) : CreateWebhook :=
  {| webhookUrl := webhookUrl options;
     jenkinsUrl := Some url;
     jenkinsUser := jenkinsUser options;
     jenkinsPassword := jenkinsPassword options;
     jobName := jobName options |}.

(** An integer every digit of which the runtime prints. *)
Definition safeInteger (n : Z) : Prop := (- 2 ^ 53 < n < 2 ^ 53)%Z.

(** ** Sample inputs for the runs *)

Definition sampleConfig : TypedGitRepoConfig :=
  {| owner := "acme"; repo := "widgets"; protocol := "https";
     host := Some "git.example.com"; username := "alice";
     password := "s3cret"; branch := Some "main" |}.

(** A 403 answer of the secondary rate limit, asking to retry after 2
    seconds. *)
Definition rateLimited : JsError :=
  ResponseError "You have exceeded a secondary rate limit" 403
    {| header := [("Retry-After", "2")];
       text := "You have exceeded a secondary rate limit" |}.

(** A 403 answer that is not about the rate limit. *)
Definition forbidden : JsError :=
  ResponseError "Forbidden" 403
    {| header := []; text := "Resource not accessible" |}.

(** A remote side that refuses the first request with [err] and serves
    every later one. *)
Definition failsOnce {D B} (err : JsError) (ok : B) : Remote D B :=
  fun n _ =>
    match n with
    | O => Throw err
    | S _ => Normal {| body := ok; res_text := "" |}
    end.

(** A remote side that refuses every request with [err]. *)
Definition failsAlways {D B} (err : JsError) : Remote D B :=
  fun _ _ => Throw err.

(** A remote side that serves every request with [response]. *)
Definition serves {D B} (response : Response B) : Remote D B :=
  fun _ _ => Normal response.

(** A 422 answer to the creation of a hook that is already there. *)
Definition hookExists : JsError :=
  ResponseError "Unprocessable Entity" 422
    {| header := [];
       text := "Validation Failed: Hook already exists on this repository" |}.

(** A GitLab tree with a directory, a file under [files/] and a file whose
    path holds [files/] further in. *)
Definition gitlabTree : list Gitlab.Tree :=
  [ Gitlab.mkTree "t1" "files" "tree" "files" "040000";
    Gitlab.mkTree "b1" "a.yaml" "blob" "files/a.yaml" "100644";
    Gitlab.mkTree "b2" "b.txt" "blob" "src/files/b.txt" "100644" ].

Definition githubTree : Github.TreeResponse :=
  Github.mkTreeResponse "abc" "https://api.github.com/repos/acme/widgets/git/trees/abc"
    [ Github.mkTree "src" "040000" "tree" None "d1" "https://api.github.com/t/d1";
      Github.mkTree "README.md" "100644" "blob" (Some 12%Z) "f1" "https://api.github.com/b/f1" ]
    (Some false).

Definition halfDraws : nat -> Q := fun _ => (1 # 2)%Q.

(** A function whose call itself throws [err] until a timer has been set,
    and gives a fulfilled promise afterwards. *)
Definition throwsUntilTimer {D T} (err : JsError) (v : T) : @M D (promise T) :=
  fun w =>
    match timers w with
    | [] => (Throw err, w)
    | _ :: _ => (Normal (Resolved v), w)
    end.

(** ** The logger ([VerboseLogger] and its factories) *)

Module Logging.

(** A value passed as [context], of type [any]. *)
Inductive JsValue : Type :=
| VUndefined
| VNull
| VBool (b : bool)
| VNumber (n : Z)
| VNaN
| VString (s : string)
| VObject (entries : list (string * string)).

(** [if (context)] *)
Definition truthy (v : JsValue) : bool :=
  match v with
  | VUndefined | VNull | VNaN => false
  | VBool b => b
  | VNumber n => negb (n =? 0)%Z
  | VString s => negb (String.eqb s "")
  | VObject _ => true
  end.

(** What reaches the console: a call of [console.log] or [console.error]
    with one or two arguments, or a [process.stdout.write]. *)
Inductive Output : Type :=
| ConsoleLog (message : string) (context : option JsValue)
| ConsoleError (message : string) (context : option JsValue)
| StdoutWrite (message : string).

Definition Console : Type := list Output.

(** [constructor(private verbose?: boolean)] *)
Record VerboseLogger : Type := mkVerboseLogger {
  verbose : option bool
}.

(** [!this.verbose] *)
Definition notVerbose (this : VerboseLogger) : bool :=
  match verbose this with
  | Some b => negb b
  | None => true
  end.

Definition info (this : VerboseLogger) : string := "verbose logger".

(** A missing [context] is [undefined]. *)
Definition log (this : VerboseLogger) (message : string) (context : JsValue)
  (console : Console) : Console :=
  if truthy context
  then (console ++ [ConsoleLog message (Some context)])%list
  else (console ++ [ConsoleLog message None])%list.

(** The setter of [text]. *)
Definition setText (this : VerboseLogger) (text : string) (console : Console) : Console :=
  log this text VUndefined console.

Definition logn (this : VerboseLogger) (message : string) (context : JsValue)
  (console : Console) : Console :=
  (console ++ [StdoutWrite message])%list.

Definition debug (this : VerboseLogger) (message : string) (context : JsValue)
  (console : Console) : Console :=
  if notVerbose this then console
  else if truthy context
       then (console ++ [ConsoleLog message (Some context)])%list
       else (console ++ [ConsoleLog message None])%list.

Definition error (this : VerboseLogger) (message : string) (context : JsValue)
  (console : Console) : Console :=
  if notVerbose this then console
  else if truthy context
       then (console ++ [ConsoleError message (Some context)])%list
       else (console ++ [ConsoleError message None])%list.

Definition stop (this : VerboseLogger) (console : Console) : Console := console.

(** The argument of [logFactory]. *)
Record FactoryConfig : Type := mkFactoryConfig {
  cfg_verbose : option bool;
  cfg_spinner : option bool
}.

(** [process.env] is a dictionary of strings.  The defaults of the two
    factories read it; [logFactory] then builds its logger without any
    argument. *)
Definition logFactory (env : list (string * string)) (config : FactoryConfig)
  : unit -> VerboseLogger :=
  let verbose :=
    match cfg_verbose config with
    | Some b => b
    | None => match lookup "VERBOSE_LOGGING" env with
              | Some v => String.eqb v "true"
              | None => false
              end
    end in
  let spinner :=
    match cfg_spinner config with
    | Some b => b
    | None => match lookup "LOGGING_SPINNER" env with
              | Some v => String.eqb v "false"
              | None => false
              end
    end in
  fun _ => mkVerboseLogger None.

Definition verboseLoggerFactory (env : list (string * string)) (verbose : option bool)
  : unit -> VerboseLogger :=
  let verbose :=
    match verbose with
    | Some b => b
    | None => match lookup "VERBOSE_LOGGING" env with
              | Some v => String.eqb v "true"
              | None => false
              end
    end in
  fun _ => mkVerboseLogger (Some verbose).

End Logging.

(** ** What a request must carry, and what an operation may change *)

(** The world [w] with the one request [req] sent and nothing else done. *)
Definition afterRequest {D} (w : World D) (req : Request D) : World D :=
  mkWorld (requests w ++ [req])%list (timers w) (debugLog w) (randomCalls w).

(** A request with the basic-auth credentials, the client identifier and the
    media type of the GitHub-family adapter. *)
Definition githubRequest (config : TypedGitRepoConfig) (req : Request Github.Data) : Prop :=
  req_auth req = Some (username config, password config)
  /\ req_headers req = [("User-Agent", username config ++ " via ibm-garage-cloud cli")]
  /\ req_accept req = Some "application/vnd.github.v3+json".

(** A request with the private token and the client identifier of the GitLab
    adapter, and without basic-auth credentials. *)
Definition gitlabRequest (config : TypedGitRepoConfig)
  (req : Request Gitlab.GitlabHookData) : Prop :=
  req_auth req = None
  /\ lookup "Private-Token" (req_headers req) = Some (password config)
  /\ lookup "User-Agent" (req_headers req)
     = Some (username config ++ " via ibm-garage-cloud cli")
  /\ req_accept req = Some "application/json".

(** A request with the basic-auth credentials and the client identifier of
    the Bitbucket adapter. *)
Definition bitbucketRequest (config : TypedGitRepoConfig)
  (req : Request Bitbucket.BitbucketHookData) : Prop :=
  req_auth req = Some (username config, password config)
  /\ req_headers req = [("User-Agent", username config ++ " via ibm-garage-cloud cli")].

(** A listed GitHub tree entry, read as the descriptor [getFileContents]
    takes. *)
Definition descriptorOfTree (t : Github.Tree) : FileDescriptor :=
  {| fd_path := Github.path t; fd_url := Some (Github.tree_url t) |}.

(** The characters the runtime documents as ignored in base64 input. *)
Definition isWhitespace (c : ascii) : bool :=
  Ascii.eqb c " "%char || Ascii.eqb c "009"%char
  || Ascii.eqb c "010"%char || Ascii.eqb c "013"%char.

(** A function whose call always throws [err]. *)
Definition alwaysThrows {D T} (err : JsError) : @M D (promise T) :=
  fun w => (Throw err, w).

Definition sampleBranches : list Gitlab.Branch :=
  [ Gitlab.mkBranch "dev" false; Gitlab.mkBranch "main" true;
    Gitlab.mkBranch "release" true ].

Definition bitbucketSrc : Bitbucket.SrcResponse :=
  Bitbucket.mkSrcResponse 1 None None 100
    [ Bitbucket.mkTreeEntry "src" "commit_directory" None None
        (Bitbucket.mkLinks (Bitbucket.mkHref "https://api.bitbucket.org/s/src")
           (Bitbucket.mkHref "https://api.bitbucket.org/m/src"));
      Bitbucket.mkTreeEntry "README.md" "commit_file" (Some "text/markdown") (Some 12%Z)
        (Bitbucket.mkLinks (Bitbucket.mkHref "https://api.bitbucket.org/s/README.md")
           (Bitbucket.mkHref "https://api.bitbucket.org/m/README.md")) ].

Definition gitlabFile : Gitlab.FileResponse :=
  Gitlab.mkFileResponse "a.yaml" "files/a.yaml" 5 Gitlab.base64 "aGVsbG8="
    "sha" "main" "blob" "commit" "last".

(** * Properties *)

(** ** Runs of the primitives *)

Example replace_prefix : Js.replace "files/a/b.txt" "files/" "" = "a/b.txt".
Proof. reflexivity. Qed.

Example replace_inner : Js.replace "src/files/b.txt" "files/" "" = "src/b.txt".
Proof. reflexivity. Qed.

Example show_42 : Js.show 42 = "42".
Proof. reflexivity. Qed.

Example lines_ex : Js.lines ("ab" ++ String "010"%char "cd") = ["ab"; "cd"].
Proof. reflexivity. Qed.

Example testGlobal_twice :
  Js.testGlobal "secondary rate limit" 0 "You have exceeded a secondary rate limit" = (true, 40)
  /\ Js.testGlobal "secondary rate limit" 40 "You have exceeded a secondary rate limit" = (false, 0).
Proof. split; reflexivity. Qed.

Example splitLast_ex :
  Js.splitLast "://" "https://jenkins.local/" = Some ("https", "jenkins.local/").
Proof. reflexivity. Qed.

Example fromBase64_hello :
  Buffer.fromBase64 "aGVsbG8=" = list_byte_of_string "hello".
Proof. reflexivity. Qed.

Example fromBase64_wrapped :
  Buffer.fromBase64 ("aGVs" ++ String "010"%char "bG8h") = list_byte_of_string "hello!".
Proof. reflexivity. Qed.

(** ** Strings *)

Section StringFacts.

Lemma startsWith_app (p s : string) : Js.startsWith (p ++ s) p = true.
Proof.
  induction p as [|a p IH]; simpl.
  - reflexivity.
  - rewrite Ascii.eqb_refl. exact IH.
Qed.

Lemma drop_app (p s : string) : Js.drop (String.length p) (p ++ s) = s.
Proof.
  induction p as [|a p IH]; simpl; [reflexivity | exact IH].
Qed.

Lemma startsWith_split (s p : string) :
  Js.startsWith s p = true -> s = p ++ Js.drop (String.length p) s.
Proof.
  revert s. induction p as [|a p IH]; intros s H; simpl in *.
  - reflexivity.
  - destruct s as [|b s]; [discriminate|].
    apply andb_true_iff in H. destruct H as [Hab Hs].
    apply Ascii.eqb_eq in Hab. subst b. simpl. f_equal. apply IH. exact Hs.
Qed.

(** A pattern that heads the string is the occurrence that is replaced. *)
Lemma replace_startsWith (s pat rep : string) :
  Js.startsWith s pat = true ->
  Js.replace s pat rep = rep ++ Js.drop (String.length pat) s.
Proof.
  intros H. destruct s; simpl; rewrite H; reflexivity.
Qed.

Lemma replace_app (pat rest rep : string) :
  Js.replace (pat ++ rest) pat rep = rep ++ rest.
Proof.
  rewrite replace_startsWith by apply startsWith_app.
  rewrite drop_app. reflexivity.
Qed.

(** Without an occurrence of the pattern nothing is replaced. *)
Lemma replace_absent (s pat rep : string) :
  Js.includes s pat = false -> Js.replace s pat rep = s.
Proof.
  induction s as [|c s IH]; simpl; intros H.
  - apply orb_false_iff in H. destruct H as [H _]. rewrite H. reflexivity.
  - apply orb_false_iff in H. destruct H as [H1 H2].
    rewrite H1. f_equal. apply IH. exact H2.
Qed.

End StringFacts.

(** ** The retry wrapper of the GitHub-family adapter *)

Section Exec.

Variable draws : nat -> Q.
Variable toNumber : string -> option Q.

(** Calling an [async] function never throws, so the handler of [exec] is
    never entered for it: with any fuel left, [exec] makes the one call and
    hands its promise on. *)
Lemma exec_async {T} (fuel : nat) (f : @Async Github.Data T) (name : string)
  (w : World Github.Data) :
  Github.exec draws toNumber (S fuel) (promiseOf f) name w = Some (f w).
Proof.
  unfold Github.exec, Github.execLoop, promiseOf.
  destruct (f w) as [p w']. reflexivity.
Qed.

(** The handler at work, for a function whose call throws: a 403 of the
    secondary rate limit with [Retry-After: 2] and a draw of one half sets a
    timer of 2500 ms, after which the function is called again. *)
Example exec_handler_waits :
  Github.exec halfDraws decimalToNumber 5
    (throwsUntilTimer rateLimited "done") "op" emptyWorld
  = Some (Resolved "done",
          mkWorld [] [Some (5000 # 2)%Q]
            [GotSecondaryRateLimit "op" (Some (5000 # 2)%Q)] 1).
Proof. reflexivity. Qed.

(** The handler hands on a 403 that is not about the rate limit. *)
Example exec_handler_rethrows :
  Github.exec halfDraws decimalToNumber 5
    (throwsUntilTimer (T:=string) forbidden "done") "op" emptyWorld
  = Some (Rejected forbidden,
          mkWorld [] [] [ErrorCallingApi "op" forbidden true (Some 403%Z)] 0).
Proof. reflexivity. Qed.

End Exec.

Section ExecClaims.

Import Github.

(** Whatever the remote side answers, each wrapped operation sends exactly
    one request and sets no timer. *)
Lemma wrapped_operations_send_once
  (variant : Variant) (config : TypedGitRepoConfig) (draws : nat -> Q)
  (toNumber : string -> option Q) (fuel : nat) (w : World Data) :
  (forall (remote : Remote Data PullBody) (pullNumber : Z),
      exists p req,
        getPullRequest variant config draws toNumber (S fuel) remote pullNumber w
        = Some (p, mkWorld (requests w ++ [req])%list (timers w) (debugLog w)
                     (randomCalls w)))
  /\ (forall (remote : Remote Data PullBody) (options : CreatePullRequestOptions),
      exists p req,
        createPullRequest variant config draws toNumber (S fuel) remote options w
        = Some (p, mkWorld (requests w ++ [req])%list (timers w) (debugLog w)
                     (randomCalls w)))
  /\ (forall (remote : Remote Data MessageBody) (options : MergePullRequestOptions),
      exists p req,
        mergePullRequest variant config draws toNumber (S fuel) remote options w
        = Some (p, mkWorld (requests w ++ [req])%list (timers w) (debugLog w)
                     (randomCalls w)))
  /\ (forall (remote : Remote Data MessageBody) (pullNumber : Z),
      exists p req,
        updatePullRequestBranch variant config draws toNumber (S fuel) remote pullNumber w
        = Some (p, mkWorld (requests w ++ [req])%list (timers w) (debugLog w)
                     (randomCalls w))).
Proof.
  repeat split; intros remote arg;
    [ unfold getPullRequest | unfold createPullRequest
    | unfold mergePullRequest | unfold updatePullRequestBranch ];
    rewrite exec_async;
    unfold async, bind, await, get, post, put, send;
    match goal with
    | |- context [remote ?n ?req] => destruct (remote n req)
    end;
    eexists; eexists; reflexivity.
Qed.

(** C1, at the input where it fails.  The remote side refuses the first
    request with a 403 of the secondary rate limit carrying [Retry-After: 2]
    and would serve the second one.  Each of the four wrapped operations
    sends its one request, sets no timer, logs nothing, draws no random
    number and hands the 403 to its caller: there is no sleep and no retry.
    The [try] block of [exec] returns the promise of [f()] without awaiting
    it, so its rejection never reaches the handler. *)
Theorem rate_limit_is_not_retried :
  getPullRequest Github sampleConfig halfDraws decimalToNumber 5
    (failsOnce rateLimited (mkPullBody 7 (mkRef "feature") (mkRef "main"))) 7 emptyWorld
  = Some (Rejected rateLimited,
          mkWorld
            [mkRequest GET (Some "https://api.github.com/repos/acme/widgets/pulls/7")
               (Some ("alice", "s3cret"))
               [("User-Agent", "alice via ibm-garage-cloud cli")]
               (Some "application/vnd.github.v3+json") None]
            [] [] 0)
  /\ (exists req,
        createPullRequest Github sampleConfig halfDraws decimalToNumber 5
          (failsOnce rateLimited (mkPullBody 8 (mkRef "feature") (mkRef "main")))
          (mkCreatePullRequestOptions "t" "feature" "main" true None) emptyWorld
        = Some (Rejected rateLimited, mkWorld [req] [] [] 0))
  /\ (exists req,
        mergePullRequest Github sampleConfig halfDraws decimalToNumber 5
          (failsOnce rateLimited (mkMessageBody "merged"))
          (mkMergePullRequestOptions 7 "t" "m" "squash") emptyWorld
        = Some (Rejected rateLimited, mkWorld [req] [] [] 0))
  /\ (exists req,
        updatePullRequestBranch Github sampleConfig halfDraws decimalToNumber 5
          (failsOnce rateLimited (mkMessageBody "updating")) 7 emptyWorld
        = Some (Rejected rateLimited, mkWorld [req] [] [] 0)).
Proof.
  split; [reflexivity|].
  repeat split; eexists; reflexivity.
Qed.

(** C2.  An error that is not a 403 of the secondary rate limit (a 403 with
    another message included) reaches the caller of each wrapped operation
    as it was raised, after the one request that failed: nothing more is
    sent and no timer is set. *)
Theorem other_errors_are_reraised_at_once
  (variant : Variant) (config : TypedGitRepoConfig) (draws : nat -> Q)
  (toNumber : string -> option Q) (fuel : nat) (w : World Data) (err : JsError) :
  isSecondaryRateLimit err = false ->
  (forall (remote : Remote Data PullBody) (pullNumber : Z),
      (forall req, remote (List.length (requests w)) req = Throw err) ->
      exists req,
        getPullRequest variant config draws toNumber (S fuel) remote pullNumber w
        = Some (Rejected err,
                mkWorld (requests w ++ [req])%list (timers w) (debugLog w) (randomCalls w)))
  /\ (forall (remote : Remote Data PullBody) (options : CreatePullRequestOptions),
      (forall req, remote (List.length (requests w)) req = Throw err) ->
      exists req,
        createPullRequest variant config draws toNumber (S fuel) remote options w
        = Some (Rejected err,
                mkWorld (requests w ++ [req])%list (timers w) (debugLog w) (randomCalls w)))
  /\ (forall (remote : Remote Data MessageBody) (options : MergePullRequestOptions),
      (forall req, remote (List.length (requests w)) req = Throw err) ->
      exists req,
        mergePullRequest variant config draws toNumber (S fuel) remote options w
        = Some (Rejected err,
                mkWorld (requests w ++ [req])%list (timers w) (debugLog w) (randomCalls w)))
  /\ (forall (remote : Remote Data MessageBody) (pullNumber : Z),
      (forall req, remote (List.length (requests w)) req = Throw err) ->
      exists req,
        updatePullRequestBranch variant config draws toNumber (S fuel) remote pullNumber w
        = Some (Rejected err,
                mkWorld (requests w ++ [req])%list (timers w) (debugLog w) (randomCalls w))).
Proof.
  intros _.
  repeat split; intros remote arg Hfail; eexists;
    [ unfold getPullRequest | unfold createPullRequest
    | unfold mergePullRequest | unfold updatePullRequestBranch ];
    rewrite exec_async;
    unfold async, bind, await, get, post, put, send;
    rewrite Hfail; reflexivity.
Qed.

Lemma other_errors_are_reraised_at_once_witness :
  isSecondaryRateLimit forbidden = false
  /\ exists req,
       getPullRequest Github sampleConfig halfDraws decimalToNumber 1
         (failsAlways forbidden) 7 emptyWorld
       = Some (Rejected forbidden, mkWorld ([] ++ [req])%list [] [] 0).
Proof.
  split; [reflexivity|].
  destruct (other_errors_are_reraised_at_once Github sampleConfig halfDraws
              decimalToNumber 0 emptyWorld forbidden eq_refl) as [H _].
  exact (H (failsAlways forbidden) 7%Z (fun _ => eq_refl)).
Defined.

End ExecClaims.

(** ** Operations an adapter does not implement *)

(** C5.  On the GitLab and on the Bitbucket adapter each of the four
    pull-request operations, whatever it is given, rejects with the error
    "Method not implemented: " followed by the name of the operation; it
    returns no value and leaves the world as it was. *)
Theorem pull_request_operations_not_implemented
  (pullNumber : Z) (create : CreatePullRequestOptions)
  (merge : MergePullRequestOptions)
  (wl : World Gitlab.GitlabHookData) (wb : World Bitbucket.BitbucketHookData) :
  Gitlab.getPullRequest pullNumber wl
    = (Rejected (Error ("Method not implemented: " ++ "getPullRequest")), wl)
  /\ Gitlab.createPullRequest create wl
    = (Rejected (Error ("Method not implemented: " ++ "createPullRequest")), wl)
  /\ Gitlab.mergePullRequest merge wl
    = (Rejected (Error ("Method not implemented: " ++ "mergePullRequest")), wl)
  /\ Gitlab.updatePullRequestBranch pullNumber wl
    = (Rejected (Error ("Method not implemented: " ++ "updatePullRequestBranch")), wl)
  /\ Bitbucket.getPullRequest pullNumber wb
    = (Rejected (Error ("Method not implemented: " ++ "getPullRequest")), wb)
  /\ Bitbucket.createPullRequest create wb
    = (Rejected (Error ("Method not implemented: " ++ "createPullRequest")), wb)
  /\ Bitbucket.mergePullRequest merge wb
    = (Rejected (Error ("Method not implemented: " ++ "mergePullRequest")), wb)
  /\ Bitbucket.updatePullRequestBranch pullNumber wb
    = (Rejected (Error ("Method not implemented: " ++ "updatePullRequestBranch")), wb).
Proof. repeat split. Qed.

(** ** The ref an adapter expects *)

(** C9.  With the branch "main" configured, the GitHub-family and the GitLab
    adapter give "refs/heads/main" and the Bitbucket adapter gives the bare
    "main". *)
Theorem getRef_of_main (config : TypedGitRepoConfig) :
  branch config = Some "main" ->
  Github.getRef config = "refs/heads/main"
  /\ Gitlab.getRef config = "refs/heads/main"
  /\ Bitbucket.getRef config = Some "main".
Proof.
  intros H. unfold Github.getRef, Gitlab.getRef, Bitbucket.getRef.
  rewrite H. repeat split.
Qed.

Lemma getRef_of_main_witness :
  branch sampleConfig = Some "main"
  /\ Github.getRef sampleConfig = "refs/heads/main"
  /\ Gitlab.getRef sampleConfig = "refs/heads/main"
  /\ Bitbucket.getRef sampleConfig = Some "main".
Proof.
  split; [reflexivity | apply (getRef_of_main sampleConfig); reflexivity].
Defined.

(** ** Webhook creation *)

(** The data sent for a webhook that is derived from the Jenkins job of the
    samples. *)
Example gitlab_buildWebhookData_run :
  Gitlab.buildWebhookData sampleConfig
    (Gitlab.mkGitlabParams "acme" "widgets" (Some "https://jenkins.example.com")
       (Some "bob") (Some "pw") (Some "build") None)
  = Normal {| Gitlab.id := "acme%2Fwidgets";
              Gitlab.url := "https://bob:pw@jenkins.example.com/project/build";
              Gitlab.push_events := Some true;
              Gitlab.enable_ssl_verification := Some true;
              Gitlab.token := None |}.
Proof. reflexivity. Qed.

(** C10.  Whatever the options, the data built for a webhook marks the hook
    active and lists the push event alone on GitHub (["push"]) and on
    Bitbucket (["repo:push"]); on GitLab, whose hook data has no flag for
    being active and no event flag other than [push_events], the data that is
    built sets [push_events] to true. *)
Theorem webhook_data_subscribes_to_push_only
  (config : TypedGitRepoConfig) (options : CreateWebhook) :
  (Github.active (Github.buildWebhookData options) = true
   /\ map Github.eventValue (Github.events (Github.buildWebhookData options)) = ["push"]
   /\ ~ In Github.pullRequest (Github.events (Github.buildWebhookData options)))
  /\ (Bitbucket.active (Bitbucket.buildWebhookData options) = true
      /\ map Bitbucket.eventValue (Bitbucket.events (Bitbucket.buildWebhookData options))
         = ["repo:push"])
  /\ (forall data,
        Gitlab.buildWebhookData config (Gitlab.assignParams config options) = Normal data ->
        Gitlab.push_events data = Some true).
Proof.
  split; [|split].
  - repeat split. simpl. intros [H|[]]. discriminate H.
  - repeat split.
  - intros data H. unfold Gitlab.buildWebhookData in H.
    destruct (Gitlab.execUrlPattern _) as [[proto hst]|]; [|discriminate].
    injection H as <-. reflexivity.
Qed.

Lemma webhook_data_subscribes_to_push_only_witness :
  Gitlab.buildWebhookData sampleConfig
    (Gitlab.assignParams sampleConfig (mkCreateWebhook None None None None (Some "build")))
  = Normal {| Gitlab.id := "acme%2Fwidgets";
              Gitlab.url := "https://jenkins.local//project/build";
              Gitlab.push_events := Some true;
              Gitlab.enable_ssl_verification := Some true;
              Gitlab.token := None |}
  /\ Gitlab.push_events
       {| Gitlab.id := "acme%2Fwidgets";
          Gitlab.url := "https://jenkins.local//project/build";
          Gitlab.push_events := Some true;
          Gitlab.enable_ssl_verification := Some true;
          Gitlab.token := None |} = Some true.
Proof.
  split; [reflexivity|].
  apply (proj2 (proj2 (webhook_data_subscribes_to_push_only sampleConfig
                         (mkCreateWebhook None None None None (Some "build"))))).
  reflexivity.
Defined.

Section WebhookHandler.

Context {D : Type}.
Variable attempt : @M D string.
Variable w : World D.

(** What the handler makes of an error is a report of it. *)
Lemma handler_reports (cause : JsError) (w' : World D) :
  exists raised,
    webhookHandler cause w' = (Throw raised, w') /\ WebhookFailure cause raised.
Proof.
  destruct cause as [m | m | m st r | m e | m e];
    try (eexists; split; [reflexivity|];
         apply UnknownFailure; intros; discriminate).
  cbv beta iota.
  destruct (Js.includes (text r) "Hook already exists") eqn:Hinc;
    eexists; (split; [reflexivity|]).
  - eapply AlreadyExists; [reflexivity | exact Hinc].
  - apply UnknownFailure. intros m' st' r' Heq.
    injection Heq as _ _ <-. exact Hinc.
Qed.

(** A [try] block that throws makes the [async] function reject with the
    report of what was thrown. *)
Lemma tryCatch_reports (cause : JsError) :
  fst (attempt w) = Throw cause ->
  exists raised,
    fst (async (tryCatch attempt webhookHandler) w) = Rejected raised
    /\ WebhookFailure cause raised.
Proof.
  intros Hthrow. unfold async, tryCatch.
  destruct (attempt w) as [c w'] eqn:Hrun. simpl in Hthrow. subst c.
  destruct (handler_reports cause w') as [raised [Hh Hc]].
  exists raised. split; [|exact Hc].
  rewrite Hh. reflexivity.
Qed.

(** And it rejects with nothing but such a report. *)
Lemma tryCatch_rejects_with_report (raised : JsError) :
  fst (async (tryCatch attempt webhookHandler) w) = Rejected raised ->
  exists cause, fst (attempt w) = Throw cause /\ WebhookFailure cause raised.
Proof.
  unfold async, tryCatch.
  destruct (attempt w) as [[hookId | cause] w'] eqn:Hrun; simpl.
  - discriminate.
  - destruct (handler_reports cause w') as [raised' [Hh Hc]].
    rewrite Hh. simpl. intros H. injection H as <-.
    exists cause. split; [reflexivity | exact Hc].
Qed.

End WebhookHandler.

(** The request of [createWebhook], run against a remote side that refuses
    it. *)
Ltac request_fails Hfail :=
  unfold bind, await, Github.post, send, ret; simpl;
  rewrite ?Hfail; reflexivity.

(** The failure of the [try] block traced back to the remote side. *)
Ltac trace_failure Hattempt :=
  unfold bind, await, Github.post, send, ret in Hattempt; simpl in Hattempt;
  match type of Hattempt with
  | context [?remote ?n ?req] =>
      destruct (remote n req) as [response | e] eqn:Hrem; simpl in Hattempt;
      [ discriminate Hattempt
      | injection Hattempt as ->; eexists; exact Hrem ]
  end.

(** C3.  On each adapter a failure of webhook creation is reported
    classified.  When the request fails with [cause], [createWebhook] rejects
    with [WebhookAlreadyExists] if [cause] is a response error whose body text
    holds "Hook already exists" and with [UnknownWebhookError] otherwise,
    [cause] being carried in both; and whatever [createWebhook] rejects with
    is such a report of the failure of its request (on GitLab, of the request
    or of building the data to send). *)
Theorem createWebhook_failures_are_classified
  (config : TypedGitRepoConfig) (options : CreateWebhook) :
  (forall variant (remote : Remote Github.Data Github.HookBody) w,
      (forall cause,
          (forall req, remote (List.length (requests w)) req = Throw cause) ->
          exists raised,
            fst (Github.createWebhook variant config remote options w) = Rejected raised
            /\ WebhookFailure cause raised)
      /\ (forall raised,
          fst (Github.createWebhook variant config remote options w) = Rejected raised ->
          exists cause,
            WebhookFailure cause raised
            /\ exists req, remote (List.length (requests w)) req = Throw cause))
  /\ (forall (remote : Remote Gitlab.GitlabHookData Gitlab.HookBody) w,
      (forall cause data,
          Gitlab.buildWebhookData config (Gitlab.assignParams config options) = Normal data ->
          (forall req, remote (List.length (requests w)) req = Throw cause) ->
          exists raised,
            fst (Gitlab.createWebhook config remote options w) = Rejected raised
            /\ WebhookFailure cause raised)
      /\ (forall cause,
          Gitlab.buildWebhookData config (Gitlab.assignParams config options) = Throw cause ->
          exists raised,
            fst (Gitlab.createWebhook config remote options w) = Rejected raised
            /\ WebhookFailure cause raised)
      /\ (forall raised,
          fst (Gitlab.createWebhook config remote options w) = Rejected raised ->
          exists cause,
            WebhookFailure cause raised
            /\ ((exists req, remote (List.length (requests w)) req = Throw cause)
                \/ Gitlab.buildWebhookData config (Gitlab.assignParams config options)
                   = Throw cause)))
  /\ (forall (remote : Remote Bitbucket.BitbucketHookData Bitbucket.HookBody) w,
      (forall cause,
          (forall req, remote (List.length (requests w)) req = Throw cause) ->
          exists raised,
            fst (Bitbucket.createWebhook config remote options w) = Rejected raised
            /\ WebhookFailure cause raised)
      /\ (forall raised,
          fst (Bitbucket.createWebhook config remote options w) = Rejected raised ->
          exists cause,
            WebhookFailure cause raised
            /\ exists req, remote (List.length (requests w)) req = Throw cause)).
Proof.
  split; [|split].
  - intros variant remote w. split.
    + intros cause Hfail. apply tryCatch_reports. request_fails Hfail.
    + intros raised Hrej.
      apply tryCatch_rejects_with_report in Hrej.
      destruct Hrej as [cause [Hattempt Hc]].
      exists cause. split; [exact Hc|]. trace_failure Hattempt.
  - intros remote w. split; [|split].
    + intros cause data Hdata Hfail. apply tryCatch_reports.
      unfold bind at 1. rewrite Hdata. request_fails Hfail.
    + intros cause Hdata. apply tryCatch_reports.
      unfold bind at 1. rewrite Hdata. reflexivity.
    + intros raised Hrej.
      apply tryCatch_rejects_with_report in Hrej.
      destruct Hrej as [cause [Hattempt Hc]].
      exists cause. split; [exact Hc|].
      unfold bind at 1 in Hattempt.
      destruct (Gitlab.buildWebhookData config (Gitlab.assignParams config options))
        as [data | e] eqn:Hdata.
      * left. trace_failure Hattempt.
      * right. simpl in Hattempt. injection Hattempt as ->. reflexivity.
  - intros remote w. split.
    + intros cause Hfail. apply tryCatch_reports. request_fails Hfail.
    + intros raised Hrej.
      apply tryCatch_rejects_with_report in Hrej.
      destruct Hrej as [cause [Hattempt Hc]].
      exists cause. split; [exact Hc|]. trace_failure Hattempt.
Qed.

Lemma createWebhook_failures_are_classified_witness :
  (forall req : Request Github.Data,
      failsAlways (B:=Github.HookBody) hookExists (List.length (requests (@emptyWorld Github.Data))) req
      = Throw hookExists)
  /\ exists raised,
       fst (Github.createWebhook Github.Github sampleConfig (failsAlways hookExists)
              (mkCreateWebhook (Some "https://ci.example.com/hook") None None None None)
              emptyWorld)
       = Rejected raised
       /\ WebhookFailure hookExists raised.
Proof.
  split; [intros req; reflexivity|].
  apply (proj1 (createWebhook_failures_are_classified sampleConfig
                  (mkCreateWebhook (Some "https://ci.example.com/hook") None None None None))
           Github.Github (failsAlways hookExists) emptyWorld).
  intros req. reflexivity.
Defined.

Example createWebhook_already_exists_run :
  fst (Bitbucket.createWebhook sampleConfig (failsAlways hookExists)
         (mkCreateWebhook (Some "https://ci.example.com/hook") None None None None)
         emptyWorld)
  = Rejected (WebhookAlreadyExists "Webhook already exists on repository" hookExists).
Proof. reflexivity. Qed.

Example createWebhook_unknown_run :
  fst (Gitlab.createWebhook sampleConfig (failsAlways forbidden)
         (mkCreateWebhook (Some "https://ci.example.com/hook") None None None None)
         emptyWorld)
  = Rejected (UnknownWebhookError "Unknown error creating webhook" forbidden).
Proof. reflexivity. Qed.

(** On GitLab a Jenkins URL without [://] fails the building of the data,
    before anything is sent; the failure is reported as unknown. *)
Example createWebhook_gitlab_bad_jenkinsUrl_run :
  Gitlab.createWebhook sampleConfig (failsAlways forbidden)
    (mkCreateWebhook (Some "https://ci.example.com/hook") (Some "jenkins.local") None None None)
    emptyWorld
  = (Rejected (UnknownWebhookError "Cannot read properties of null (reading '1')"
                 (TypeError "Cannot read properties of null (reading '1')")),
     emptyWorld).
Proof. reflexivity. Qed.

(** ** File contents *)

(** C4.  On every adapter [getFileContents] returns the file's bytes with
    the transfer encoding its vendor declares taken off: base64 on the
    GitHub-family and GitLab adapters, whose answers declare it, and none on
    Bitbucket, whose answer is the raw content.  So an answer that carries
    the base64 content "aGVsbG8=" gives the bytes of "hello". *)
Theorem getFileContents_decodes_declared_encoding
  (config : TypedGitRepoConfig) (fileDescriptor : FileDescriptor) :
  (forall variant (remote : Remote Github.Data Github.FileResponse) w response,
      (forall req, remote (List.length (requests w)) req = Normal response) ->
      exists c,
        fst (Github.getFileContents variant config remote fileDescriptor w) = Resolved c
        /\ bytesOf c
           = decoded (githubDeclares (body response)) (Github.content (body response))
        /\ githubDeclares (body response) = DeclaredBase64
        /\ (Github.content (body response) = "aGVsbG8=" ->
            bytesOf c = list_byte_of_string "hello"))
  /\ (forall (remote : Remote Gitlab.GitlabHookData Gitlab.FileResponse) w response,
      (forall req, remote (List.length (requests w)) req = Normal response) ->
      exists c,
        fst (Gitlab.getFileContents config remote fileDescriptor w) = Resolved c
        /\ bytesOf c
           = decoded (gitlabDeclares (body response)) (Gitlab.content (body response))
        /\ gitlabDeclares (body response) = DeclaredBase64
        /\ (Gitlab.content (body response) = "aGVsbG8=" ->
            bytesOf c = list_byte_of_string "hello"))
  /\ (forall (B : Type) (remote : Remote Bitbucket.BitbucketHookData B) w response,
      (forall req, remote (List.length (requests w)) req = Normal response) ->
      exists c,
        fst (Bitbucket.getFileContents config remote fileDescriptor w) = Resolved c
        /\ bytesOf c = decoded DeclaredNone (res_text response)).
Proof.
  split; [|split].
  - intros variant remote w response Hok.
    exists (OfBuffer (Buffer.fromBase64 (Github.content (body response)))).
    unfold githubDeclares. split.
    + unfold Github.getFileContents, Github.get, async, bind, await, send, ret.
      rewrite Hok. simpl. destruct (Github.encoding (body response)). reflexivity.
    + destruct (Github.encoding (body response)).
      split; [reflexivity|]. split; [reflexivity|].
      intros Hc. simpl. rewrite Hc. reflexivity.
  - intros remote w response Hok.
    exists (OfBuffer (Buffer.fromBase64 (Gitlab.content (body response)))).
    unfold gitlabDeclares. split.
    + unfold Gitlab.getFileContents, async, bind, await, send, ret.
      rewrite Hok. simpl. destruct (Gitlab.encoding (body response)). reflexivity.
    + destruct (Gitlab.encoding (body response)).
      split; [reflexivity|]. split; [reflexivity|].
      intros Hc. simpl. rewrite Hc. reflexivity.
  - intros B remote w response Hok.
    exists (OfString (res_text response)). split; [|reflexivity].
    unfold Bitbucket.getFileContents, async, bind, await, send, ret.
    rewrite Hok. reflexivity.
Qed.

Lemma getFileContents_decodes_declared_encoding_witness :
  (forall req : Request Github.Data,
      serves (mkResponse (Github.mkFileResponse "aGVsbG8=" Github.base64 "u" "s" 5 "n") "")
        (List.length (requests (@emptyWorld Github.Data))) req
      = Normal (mkResponse (Github.mkFileResponse "aGVsbG8=" Github.base64 "u" "s" 5 "n") ""))
  /\ exists c,
       fst (Github.getFileContents Github.Github sampleConfig
              (serves (mkResponse (Github.mkFileResponse "aGVsbG8=" Github.base64 "u" "s" 5 "n") ""))
              (mkFileDescriptor "hello.txt" None) emptyWorld)
       = Resolved c
       /\ bytesOf c = list_byte_of_string "hello".
Proof.
  split; [intros req; reflexivity|].
  destruct (proj1 (getFileContents_decodes_declared_encoding sampleConfig
                     (mkFileDescriptor "hello.txt" None))
              Github.Github
              (serves (mkResponse (Github.mkFileResponse "aGVsbG8=" Github.base64 "u" "s" 5 "n") ""))
              emptyWorld
              (mkResponse (Github.mkFileResponse "aGVsbG8=" Github.base64 "u" "s" 5 "n") "")
              (fun _ => eq_refl))
    as [c [Hrun [_ [_ Hhello]]]].
  exists c. split; [exact Hrun | exact (Hhello eq_refl)].
Defined.

(** The raw content "hello" read from Bitbucket, and the same content read
    from GitLab, where it travels as base64. *)
Example getFileContents_hello_runs :
  fst (Bitbucket.getFileContents sampleConfig (serves (mkResponse tt "hello"))
         (mkFileDescriptor "hello.txt"
            (Some "https://api.bitbucket.org/2.0/repositories/acme/widgets/src/abc/hello.txt"))
         emptyWorld)
  = Resolved (OfString "hello")
  /\ bytesOf (OfString "hello") = list_byte_of_string "hello"
  /\ fst (Gitlab.getFileContents sampleConfig
            (serves (mkResponse
                       (Gitlab.mkFileResponse "hello.txt" "hello.txt" 5 Gitlab.base64
                          "aGVsbG8=" "sha" "main" "blob" "commit" "last") ""))
            (mkFileDescriptor "hello.txt" (Some "https://git.example.com/f")) emptyWorld)
     = Resolved (OfBuffer (list_byte_of_string "hello")).
Proof. repeat split. Qed.

(** ** Listing files *)

Section Listing.

Variable config : TypedGitRepoConfig.

Lemma Forall2_map_self {A B} (R : A -> B -> Prop) (f : A -> B) (l : list A) :
  (forall x, In x l -> R x (f x)) -> Forall2 R l (map f l).
Proof.
  induction l as [|x l IH]; intros H; simpl; constructor.
  - apply H. left. reflexivity.
  - apply IH. intros y Hy. apply H. right. exact Hy.
Qed.

(** Entries kept by a test on their type are those of the list that have
    that type, and none of another type is among them. *)
Lemma kept_by_type {A} (typeOf : A -> string) (wanted other : string) (l : list A) :
  wanted <> other ->
  (forall t, In t (filter (fun t => String.eqb (typeOf t) wanted) l)
             <-> In t l /\ typeOf t = wanted)
  /\ Forall (fun t => typeOf t <> other)
       (filter (fun t => String.eqb (typeOf t) wanted) l).
Proof.
  intros Hne. split.
  - intros t. rewrite filter_In, String.eqb_eq. reflexivity.
  - apply Forall_forall. intros t Ht.
    apply filter_In in Ht. destruct Ht as [_ Ht].
    apply String.eqb_eq in Ht. rewrite Ht. exact Hne.
Qed.

Lemma github_listFiles_run variant (remote : Remote Github.Data Github.TreeResponse)
  w response :
  (forall req, remote (List.length (requests w)) req = Normal response) ->
  fst (Github.listFiles variant config remote w)
  = Resolved (filter (fun t => String.eqb (Github.type t) "blob")
                (Github.tree (body response))).
Proof.
  intros Hok. unfold Github.listFiles, Github.get, async, bind, await, send, ret.
  rewrite Hok. reflexivity.
Qed.

Lemma gitlab_listFiles_run (remote : Remote Gitlab.GitlabHookData (list Gitlab.Tree))
  w response :
  (forall req, remote (List.length (requests w)) req = Normal response) ->
  fst (Gitlab.listFiles config remote w)
  = Resolved
      (map (fun t =>
              {| fd_path := Js.replace (Gitlab.path t) "files/" "";
                 fd_url := Some (Gitlab.getBaseUrl config ++ "/repository/" ++ Gitlab.path t) |})
         (filter (fun t => String.eqb (Gitlab.type t) "blob") (body response))).
Proof.
  intros Hok. unfold Gitlab.listFiles, async, bind, await, send, ret.
  rewrite Hok. reflexivity.
Qed.

Lemma bitbucket_listFiles_run
  (remote : Remote Bitbucket.BitbucketHookData Bitbucket.SrcResponse) w response :
  (forall req, remote (List.length (requests w)) req = Normal response) ->
  fst (Bitbucket.listFiles config remote w)
  = Resolved
      (map (fun s =>
              {| fd_path := Bitbucket.path s;
                 fd_url := Some (Bitbucket.href (Bitbucket.self (Bitbucket.links s))) |})
         (filter (fun s => String.eqb (Bitbucket.type s) "commit_file")
            (Bitbucket.values (body response)))).
Proof.
  intros Hok. unfold Bitbucket.listFiles, async, bind, await, send, ret.
  rewrite Hok. reflexivity.
Qed.

End Listing.

(** C7.  From an answer that mixes files and directories, [listFiles] keeps
    the entries of the file type and those only ("blob" on GitHub and
    GitLab, "commit_file" on Bitbucket): the files it returns are, one for
    one and in order, the descriptors of kept entries, an entry is kept
    exactly when it is in the answer with the file type, and no kept entry
    has the directory type ("tree", "commit_directory"). *)
Theorem listFiles_returns_files_only (config : TypedGitRepoConfig) :
  (forall variant (remote : Remote Github.Data Github.TreeResponse) w response,
      (forall req, remote (List.length (requests w)) req = Normal response) ->
      exists files,
        fst (Github.listFiles variant config remote w) = Resolved files
        /\ (forall t, In t files
                      <-> In t (Github.tree (body response)) /\ Github.type t = "blob")
        /\ Forall (fun t => Github.type t <> "tree") files)
  /\ (forall (remote : Remote Gitlab.GitlabHookData (list Gitlab.Tree)) w response,
      (forall req, remote (List.length (requests w)) req = Normal response) ->
      exists kept files,
        fst (Gitlab.listFiles config remote w) = Resolved files
        /\ Forall2 (fun t file =>
                      fd_url file
                      = Some (Gitlab.getBaseUrl config ++ "/repository/" ++ Gitlab.path t))
             kept files
        /\ (forall t, In t kept <-> In t (body response) /\ Gitlab.type t = "blob")
        /\ Forall (fun t => Gitlab.type t <> "tree") kept)
  /\ (forall (remote : Remote Bitbucket.BitbucketHookData Bitbucket.SrcResponse) w response,
      (forall req, remote (List.length (requests w)) req = Normal response) ->
      exists kept files,
        fst (Bitbucket.listFiles config remote w) = Resolved files
        /\ Forall2 (fun t file =>
                      fd_path file = Bitbucket.path t
                      /\ fd_url file
                         = Some (Bitbucket.href (Bitbucket.self (Bitbucket.links t))))
             kept files
        /\ (forall t, In t kept
                      <-> In t (Bitbucket.values (body response))
                          /\ Bitbucket.type t = "commit_file")
        /\ Forall (fun t => Bitbucket.type t <> "commit_directory") kept).
Proof.
  split; [|split].
  - intros variant remote w response Hok. eexists.
    split; [exact (github_listFiles_run config variant remote w response Hok)|].
    apply kept_by_type. discriminate.
  - intros remote w response Hok. eexists. eexists.
    split; [exact (gitlab_listFiles_run config remote w response Hok)|].
    split; [apply Forall2_map_self; intros; reflexivity|].
    apply kept_by_type. discriminate.
  - intros remote w response Hok. eexists. eexists.
    split; [exact (bitbucket_listFiles_run config remote w response Hok)|].
    split; [apply Forall2_map_self; intros; split; reflexivity|].
    apply kept_by_type. discriminate.
Qed.

Lemma listFiles_returns_files_only_witness :
  (forall req : Request Github.Data,
      serves (mkResponse githubTree "") (List.length (requests (@emptyWorld Github.Data))) req
      = Normal (mkResponse githubTree ""))
  /\ exists files,
       fst (Github.listFiles Github.Github sampleConfig
              (serves (mkResponse githubTree "")) emptyWorld)
       = Resolved files
       /\ (forall t, In t files
                     <-> In t (Github.tree (body (mkResponse githubTree "")))
                         /\ Github.type t = "blob")
       /\ Forall (fun t => Github.type t <> "tree") files.
Proof.
  split; [intros req; reflexivity|].
  apply (proj1 (listFiles_returns_files_only sampleConfig)
           Github.Github (serves (mkResponse githubTree "")) emptyWorld
           (mkResponse githubTree "")).
  intros req. reflexivity.
Defined.

Example github_listFiles_mixed_run :
  fst (Github.listFiles Github.Github sampleConfig
         (serves (mkResponse githubTree "")) emptyWorld)
  = Resolved
      [ Github.mkTree "README.md" "100644" "blob" (Some 12%Z) "f1"
          "https://api.github.com/b/f1" ].
Proof. reflexivity. Qed.

Example gitlab_listFiles_mixed_run :
  Gitlab.listFiles sampleConfig (serves (mkResponse gitlabTree "")) emptyWorld
  = (Resolved
       [ {| fd_path := "a.yaml";
            fd_url := Some "https://git.example.com/api/v4/projects/acme%2Fwidgets/repository/files/a.yaml" |};
         {| fd_path := "src/b.txt";
            fd_url := Some "https://git.example.com/api/v4/projects/acme%2Fwidgets/repository/src/files/b.txt" |} ],
     mkWorld
       [ mkRequest GET
           (Some "https://git.example.com/api/v4/projects/acme%2Fwidgets/repository/tree?ref=main&per_page=1000")
           None
           [("Private-Token", "s3cret"); ("User-Agent", "alice via ibm-garage-cloud cli")]
           (Some "application/json") None ]
       [] [] 0).
Proof. reflexivity. Qed.

(** C6, as amended.  For each blob entry the GitLab adapter lists, the URL is
    the base URL, "/repository/" and the path of the entry as the tree gave
    it; the listed path is that path without its leading "files/" when it
    starts with one, and that path unchanged when "files/" occurs nowhere in
    it. *)
Theorem gitlab_listFiles_rewrites_path (config : TypedGitRepoConfig)
  (remote : Remote Gitlab.GitlabHookData (list Gitlab.Tree))
  (w : World Gitlab.GitlabHookData) (response : Response (list Gitlab.Tree)) :
  (forall req, remote (List.length (requests w)) req = Normal response) ->
  exists files,
    fst (Gitlab.listFiles config remote w) = Resolved files
    /\ Forall2
         (fun t file =>
            fd_url file
            = Some (Gitlab.getBaseUrl config ++ "/repository/" ++ Gitlab.path t)
            /\ (forall rest, Gitlab.path t = "files/" ++ rest -> fd_path file = rest)
            /\ (Js.includes (Gitlab.path t) "files/" = false ->
                fd_path file = Gitlab.path t))
         (filter (fun t => String.eqb (Gitlab.type t) "blob") (body response))
         files.
Proof.
  intros Hok. eexists.
  split; [exact (gitlab_listFiles_run config remote w response Hok)|].
  apply Forall2_map_self. intros t _. simpl. split; [reflexivity|]. split.
  - intros rest Hp. rewrite Hp. apply (replace_app "files/" rest "").
  - intros Habsent. apply replace_absent. exact Habsent.
Qed.

Lemma gitlab_listFiles_rewrites_path_witness :
  (forall req : Request Gitlab.GitlabHookData,
      serves (mkResponse gitlabTree "")
        (List.length (requests (@emptyWorld Gitlab.GitlabHookData))) req
      = Normal (mkResponse gitlabTree ""))
  /\ exists files,
       fst (Gitlab.listFiles sampleConfig (serves (mkResponse gitlabTree "")) emptyWorld)
       = Resolved files
       /\ Forall2
            (fun t file =>
               fd_url file
               = Some (Gitlab.getBaseUrl sampleConfig ++ "/repository/" ++ Gitlab.path t)
               /\ (forall rest, Gitlab.path t = "files/" ++ rest -> fd_path file = rest)
               /\ (Js.includes (Gitlab.path t) "files/" = false ->
                   fd_path file = Gitlab.path t))
            (filter (fun t => String.eqb (Gitlab.type t) "blob")
               (body (mkResponse gitlabTree "")))
            files.
Proof.
  split; [intros req; reflexivity|].
  apply (gitlab_listFiles_rewrites_path sampleConfig
           (serves (mkResponse gitlabTree "")) emptyWorld (mkResponse gitlabTree "")).
  intros req. reflexivity.
Defined.

(** C6 as it stands fails: a path that does not start with "files/" but
    holds it further in is not returned unchanged. *)
Lemma gitlab_listFiles_rewrites_inner_files :
  Js.startsWith "src/files/b.txt" "files/" = false
  /\ fst (Gitlab.listFiles sampleConfig
            (serves (mkResponse [Gitlab.mkTree "b2" "b.txt" "blob" "src/files/b.txt" "100644"] ""))
            emptyWorld)
     = Resolved
         [ {| fd_path := "src/b.txt";
              fd_url := Some "https://git.example.com/api/v4/projects/acme%2Fwidgets/repository/src/files/b.txt" |} ]
  /\ "src/b.txt" <> "src/files/b.txt".
Proof.
  split; [reflexivity|]. split; [reflexivity | discriminate].
Qed.

(** ** The URL of a webhook *)

Section UrlPattern.

Lemma splitLast_absent (sep s : string) :
  Js.includes s sep = false -> Js.splitLast sep s = None.
Proof.
  induction s as [|c s IH]; simpl; intros H.
  - apply orb_false_iff in H. destruct H as [H _]. rewrite H. reflexivity.
  - apply orb_false_iff in H. destruct H as [H1 H2].
    rewrite (IH H2). rewrite H1. reflexivity.
Qed.

(** With no [://] after it, the [://] that follows [proto] is the last one. *)
Lemma splitLast_url (proto rest : string) :
  Js.includes rest "://" = false ->
  Js.splitLast "://" (proto ++ "://" ++ rest) = Some (proto, rest).
Proof.
  intros Hrest. induction proto as [|c proto IH].
  - change ("" ++ "://" ++ rest) with (String ":" ("//" ++ rest)).
    cbn [Js.splitLast].
    rewrite splitLast_absent.
    + simpl. reflexivity.
    + simpl. exact Hrest.
  - change (String c proto ++ "://" ++ rest) with (String c (proto ++ "://" ++ rest)).
    cbn [Js.splitLast]. rewrite IH. reflexivity.
Qed.

Lemma lines_singleLine (s : string) : singleLine s = true -> Js.lines s = [s].
Proof.
  induction s as [|c s IH]; simpl; intros H.
  - reflexivity.
  - apply andb_true_iff in H. destruct H as [Hc Hs].
    apply negb_true_iff in Hc. rewrite Hc. rewrite (IH Hs). reflexivity.
Qed.

Lemma singleLine_app (a b : string) :
  singleLine (a ++ b) = singleLine a && singleLine b.
Proof.
  induction a as [|c a IH]; simpl.
  - reflexivity.
  - rewrite IH. apply andb_assoc.
Qed.

(** What the pattern captures in a one-line URL with a single [://]: the
    protocol before it and everything after it. *)
Lemma execUrlPattern_url (proto rest : string) :
  singleLine proto = true ->
  singleLine rest = true ->
  Js.includes rest "://" = false ->
  Gitlab.execUrlPattern (proto ++ "://" ++ rest) = Some (proto, rest).
Proof.
  intros Hp Hr Hrest. unfold Gitlab.execUrlPattern.
  rewrite lines_singleLine.
  - cbn [Js.firstSome]. rewrite (splitLast_url proto rest Hrest). reflexivity.
  - rewrite !singleLine_app, Hp, Hr. reflexivity.
Qed.

Lemma truthy_Some (u : string) : u <> "" -> Js.truthy (Some u) = true.
Proof.
  intros Hu. simpl. apply negb_true_iff. apply String.eqb_neq. exact Hu.
Qed.

End UrlPattern.

Lemma gitlab_credentials (options : CreateWebhook) :
  (if Js.truthy (jenkinsUser options) && Js.truthy (jenkinsPassword options)
   then Js.template (jenkinsUser options) ++ ":"
        ++ Js.template (jenkinsPassword options) ++ "@"
   else "")
  = credentialsPart options.
Proof.
  unfold credentialsPart.
  destruct (jenkinsUser options) as [u|], (jenkinsPassword options) as [p|]; simpl;
    try reflexivity.
  - destruct (String.eqb u ""), (String.eqb p ""); reflexivity.
  - destruct (String.eqb u ""); reflexivity.
Qed.

(** * Further properties of the adapters *)

(** ** One awaited request *)

Section OneRequest.

Context {D B T : Type}.
Variable remote : Remote D B.
Variable req : Request D.
Variable k : Response B -> T.
Variable w : World D.

(** The shape of most operations: await one request, then compute. *)
Lemma awaited_request_result :
  fst (async (bind (await (send remote req)) (fun response => ret (k response))) w)
  = match remote (List.length (requests w)) req with
    | Normal response => Resolved (k response)
    | Throw err => Rejected err
    end.
Proof.
  unfold async, bind, await, send, ret.
  destruct (remote (List.length (requests w)) req); reflexivity.
Qed.

Lemma awaited_request_world :
  snd (async (bind (await (send remote req)) (fun response => ret (k response))) w)
  = afterRequest w req.
Proof.
  unfold async, bind, await, send, ret, afterRequest.
  destruct (remote (List.length (requests w)) req); reflexivity.
Qed.

End OneRequest.

(** Catching with the handler of [createWebhook] leaves the world as the
    [try] block left it. *)
Lemma tryCatch_handler_world {D} (attempt : @M D string) (w : World D) :
  snd (async (tryCatch attempt webhookHandler) w) = snd (attempt w).
Proof.
  unfold async, tryCatch.
  destruct (attempt w) as [[v | cause] w']; simpl; [reflexivity|].
  destruct (handler_reports cause w') as [raised [H _]].
  rewrite H. reflexivity.
Qed.

Lemma webhook_request_world {D B} (remote : Remote D B) (req : Request D)
  (k : Response B -> string) (w : World D) :
  snd (async (tryCatch
                (bind (await (send remote req)) (fun response => ret (k response)))
                webhookHandler) w)
  = afterRequest w req.
Proof.
  rewrite tryCatch_handler_world.
  unfold bind, await, send, ret, afterRequest.
  destruct (remote (List.length (requests w)) req); reflexivity.
Qed.

(** ** Errors of the read operations *)

(** An error of the request made by [listFiles], [getFileContents] or
    [getDefaultBranch] is what the operation rejects with, unchanged, on each
    of the three adapters. *)
Theorem read_operations_propagate_errors
  (config : TypedGitRepoConfig) (err : JsError) :
  (forall variant (remote : Remote Github.Data Github.TreeResponse) w,
      (forall req, remote (List.length (requests w)) req = Throw err) ->
      fst (Github.listFiles variant config remote w) = Rejected err)
  /\ (forall variant (remote : Remote Github.Data Github.FileResponse) fd w,
      (forall req, remote (List.length (requests w)) req = Throw err) ->
      fst (Github.getFileContents variant config remote fd w) = Rejected err)
  /\ (forall variant (remote : Remote Github.Data Github.RepoResponse) w,
      (forall req, remote (List.length (requests w)) req = Throw err) ->
      fst (Github.getDefaultBranch variant config remote w) = Rejected err)
  /\ (forall (remote : Remote Gitlab.GitlabHookData (list Gitlab.Tree)) w,
      (forall req, remote (List.length (requests w)) req = Throw err) ->
      fst (Gitlab.listFiles config remote w) = Rejected err)
  /\ (forall (remote : Remote Gitlab.GitlabHookData Gitlab.FileResponse) fd w,
      (forall req, remote (List.length (requests w)) req = Throw err) ->
      fst (Gitlab.getFileContents config remote fd w) = Rejected err)
  /\ (forall (remote : Remote Gitlab.GitlabHookData (list Gitlab.Branch)) w,
      (forall req, remote (List.length (requests w)) req = Throw err) ->
      fst (Gitlab.getDefaultBranch config remote w) = Rejected err)
  /\ (forall (remote : Remote Bitbucket.BitbucketHookData Bitbucket.SrcResponse) w,
      (forall req, remote (List.length (requests w)) req = Throw err) ->
      fst (Bitbucket.listFiles config remote w) = Rejected err)
  /\ (forall (B : Type) (remote : Remote Bitbucket.BitbucketHookData B) fd w,
      (forall req, remote (List.length (requests w)) req = Throw err) ->
      fst (Bitbucket.getFileContents config remote fd w) = Rejected err)
  /\ (forall (remote : Remote Bitbucket.BitbucketHookData Bitbucket.BranchResponse) w,
      (forall req, remote (List.length (requests w)) req = Throw err) ->
      fst (Bitbucket.getDefaultBranch config remote w) = Rejected err).
Proof.
  repeat split; intros;
    match goal with
    | H : forall req, _ = Throw err |- fst (?op) = _ =>
        unfold Github.listFiles, Github.getFileContents, Github.getDefaultBranch,
          Gitlab.listFiles, Gitlab.getFileContents, Gitlab.getDefaultBranch,
          Bitbucket.listFiles, Bitbucket.getFileContents,
          Bitbucket.getDefaultBranch, Github.get;
        cbv zeta; rewrite awaited_request_result, H; reflexivity
    end.
Qed.

Lemma read_operations_propagate_errors_witness :
  (forall req : Request Gitlab.GitlabHookData,
      failsAlways (B:=list Gitlab.Tree) forbidden
        (List.length (requests (@emptyWorld Gitlab.GitlabHookData))) req
      = Throw forbidden)
  /\ fst (Gitlab.listFiles sampleConfig (failsAlways forbidden) emptyWorld)
     = Rejected forbidden.
Proof.
  split; [intros req; reflexivity|].
  apply (proj1 (proj2 (proj2 (proj2
           (read_operations_propagate_errors sampleConfig forbidden))))).
  intros req. reflexivity.
Defined.

(** ** What each operation sends *)

Ltac one_request :=
  eexists; split;
  [ first [ apply awaited_request_world | apply webhook_request_world ]
  | repeat split ].

(** Every operation of the GitHub-family adapter, whatever the remote side
    answers, changes the world by exactly one request, which carries the
    configured credentials as basic auth, the client identifier and the
    GitHub media type; no timer is set, nothing is logged and no random
    number is drawn. *)
Theorem github_operations_send_one_authenticated_request
  (variant : Github.Variant) (config : TypedGitRepoConfig) (w : World Github.Data) :
  (forall (remote : Remote Github.Data Github.TreeResponse),
      exists req, snd (Github.listFiles variant config remote w) = afterRequest w req
                  /\ githubRequest config req)
  /\ (forall (remote : Remote Github.Data Github.FileResponse) fd,
      exists req, snd (Github.getFileContents variant config remote fd w) = afterRequest w req
                  /\ githubRequest config req)
  /\ (forall (remote : Remote Github.Data Github.RepoResponse),
      exists req, snd (Github.getDefaultBranch variant config remote w) = afterRequest w req
                  /\ githubRequest config req)
  /\ (forall (remote : Remote Github.Data Github.HookBody) options,
      exists req, snd (Github.createWebhook variant config remote options w) = afterRequest w req
                  /\ githubRequest config req)
  /\ (forall draws toNumber fuel (remote : Remote Github.Data Github.PullBody) pullNumber,
      exists p req,
        Github.getPullRequest variant config draws toNumber (S fuel) remote pullNumber w
        = Some (p, afterRequest w req)
        /\ githubRequest config req)
  /\ (forall draws toNumber fuel (remote : Remote Github.Data Github.PullBody) options,
      exists p req,
        Github.createPullRequest variant config draws toNumber (S fuel) remote options w
        = Some (p, afterRequest w req)
        /\ githubRequest config req)
  /\ (forall draws toNumber fuel (remote : Remote Github.Data Github.MessageBody) options,
      exists p req,
        Github.mergePullRequest variant config draws toNumber (S fuel) remote options w
        = Some (p, afterRequest w req)
        /\ githubRequest config req)
  /\ (forall draws toNumber fuel (remote : Remote Github.Data Github.MessageBody) pullNumber,
      exists p req,
        Github.updatePullRequestBranch variant config draws toNumber (S fuel) remote
          pullNumber w
        = Some (p, afterRequest w req)
        /\ githubRequest config req).
Proof.
  split; [|split; [|split; [|split]]].
  - intros remote. unfold Github.listFiles, Github.get. one_request.
  - intros remote fd. unfold Github.getFileContents, Github.get. one_request.
  - intros remote. unfold Github.getDefaultBranch, Github.get. one_request.
  - intros remote options. unfold Github.createWebhook, Github.post. one_request.
  - repeat split; intros draws toNumber fuel remote arg;
      [ unfold Github.getPullRequest | unfold Github.createPullRequest
      | unfold Github.mergePullRequest | unfold Github.updatePullRequestBranch ];
      rewrite exec_async;
      unfold Github.get, Github.post, Github.put;
      match goal with
      | |- context [async ?body w] =>
          exists (fst (async body w)); eexists;
          split; [ rewrite (surjective_pairing (async body w)); f_equal; f_equal;
                   apply awaited_request_world
                 | repeat split ]
      end.
Qed.

(** Every operation of the GitLab adapter that reaches the remote side sends
    exactly one request, with the password as private token, without
    basic-auth credentials, and changes nothing else; [createWebhook] sends
    none when the data for the hook cannot be built. *)
Theorem gitlab_operations_send_one_authenticated_request
  (config : TypedGitRepoConfig) (w : World Gitlab.GitlabHookData) :
  (forall (remote : Remote Gitlab.GitlabHookData (list Gitlab.Tree)),
      exists req, snd (Gitlab.listFiles config remote w) = afterRequest w req
                  /\ gitlabRequest config req)
  /\ (forall (remote : Remote Gitlab.GitlabHookData Gitlab.FileResponse) fd,
      exists req, snd (Gitlab.getFileContents config remote fd w) = afterRequest w req
                  /\ gitlabRequest config req)
  /\ (forall (remote : Remote Gitlab.GitlabHookData (list Gitlab.Branch)),
      exists req, snd (Gitlab.getDefaultBranch config remote w) = afterRequest w req
                  /\ gitlabRequest config req)
  /\ (forall (remote : Remote Gitlab.GitlabHookData Gitlab.HookBody) options,
      match Gitlab.buildWebhookData config (Gitlab.assignParams config options) with
      | Normal data =>
          exists req,
            snd (Gitlab.createWebhook config remote options w) = afterRequest w req
            /\ gitlabRequest config req
            /\ req_data req = Some data
      | Throw _ => snd (Gitlab.createWebhook config remote options w) = w
      end).
Proof.
  split; [|split; [|split]].
  - intros remote. unfold Gitlab.listFiles. one_request.
  - intros remote fd. unfold Gitlab.getFileContents. one_request.
  - intros remote. unfold Gitlab.getDefaultBranch. one_request.
  - intros remote options. unfold Gitlab.createWebhook.
    rewrite tryCatch_handler_world. unfold bind at 1.
    destruct (Gitlab.buildWebhookData config (Gitlab.assignParams config options))
      as [data | e].
    + eexists. split.
      { unfold bind, await, send, ret, afterRequest.
        match goal with |- context [remote ?n ?r] => destruct (remote n r) end;
          reflexivity. }
      repeat split.
    + reflexivity.
Qed.

(** On the Bitbucket adapter [listFiles], [getFileContents],
    [getDefaultBranch] and [createWebhook] each send exactly one request,
    with the configured credentials as basic auth and the client identifier,
    and change nothing else; the four pull-request operations send nothing
    and change nothing. *)
Theorem bitbucket_operations_send_one_authenticated_request
  (config : TypedGitRepoConfig) (w : World Bitbucket.BitbucketHookData) :
  (forall (remote : Remote Bitbucket.BitbucketHookData Bitbucket.SrcResponse),
      exists req, snd (Bitbucket.listFiles config remote w) = afterRequest w req
                  /\ bitbucketRequest config req)
  /\ (forall (B : Type) (remote : Remote Bitbucket.BitbucketHookData B) fd,
      exists req, snd (Bitbucket.getFileContents config remote fd w) = afterRequest w req
                  /\ bitbucketRequest config req)
  /\ (forall (remote : Remote Bitbucket.BitbucketHookData Bitbucket.BranchResponse),
      exists req, snd (Bitbucket.getDefaultBranch config remote w) = afterRequest w req
                  /\ bitbucketRequest config req)
  /\ (forall (remote : Remote Bitbucket.BitbucketHookData Bitbucket.HookBody) options,
      exists req, snd (Bitbucket.createWebhook config remote options w) = afterRequest w req
                  /\ bitbucketRequest config req
                  /\ req_data req = Some (Bitbucket.buildWebhookData options))
  /\ (forall pullNumber, snd (Bitbucket.getPullRequest pullNumber w) = w)
  /\ (forall options, snd (Bitbucket.createPullRequest options w) = w)
  /\ (forall options, snd (Bitbucket.mergePullRequest options w) = w)
  /\ (forall pullNumber, snd (Bitbucket.updatePullRequestBranch pullNumber w) = w).
Proof.
  split; [|split; [|split; [|split]]].
  - intros remote. unfold Bitbucket.listFiles. one_request.
  - intros B remote fd. unfold Bitbucket.getFileContents. one_request.
  - intros remote. unfold Bitbucket.getDefaultBranch. one_request.
  - intros remote options. unfold Bitbucket.createWebhook. one_request.
  - repeat split.
Qed.

(** ** Which URL is asked for *)

(** [getFileContents] of the GitHub-family adapter asks for the URL of the
    descriptor as it stands when that URL starts with "http", for the base
    URL followed by it when it does not, and for the base URL followed by
    "/contents/" and the path when the descriptor has no URL or an empty
    one. *)
Theorem github_getFileContents_url
  (variant : Github.Variant) (config : TypedGitRepoConfig)
  (remote : Remote Github.Data Github.FileResponse)
  (fd : FileDescriptor) (w : World Github.Data) :
  exists req,
    snd (Github.getFileContents variant config remote fd w) = afterRequest w req
    /\ req_method req = GET
    /\ (forall u, fd_url fd = Some u -> u <> "" -> Js.startsWith u "http" = true ->
        req_url req = Some u)
    /\ (forall u, fd_url fd = Some u -> u <> "" -> Js.startsWith u "http" = false ->
        req_url req = Some (Github.getBaseUrl variant config ++ u))
    /\ (fd_url fd = None \/ fd_url fd = Some "" ->
        req_url req
        = Some (Github.getBaseUrl variant config ++ "/contents/" ++ fd_path fd)).
Proof.
  unfold Github.getFileContents, Github.get.
  eexists. split; [apply awaited_request_world|].
  cbn [req_method req_url]. split; [reflexivity|]. split; [|split].
  - intros u Hu Hne Hhttp. rewrite Hu, (truthy_Some u Hne). cbn [Js.template].
    rewrite Hhttp. reflexivity.
  - intros u Hu Hne Hhttp. rewrite Hu, (truthy_Some u Hne). cbn [Js.template].
    rewrite Hhttp. reflexivity.
  - intros [Hu | Hu]; rewrite Hu; reflexivity.
Qed.

Lemma github_getFileContents_url_witness :
  exists req,
    snd (Github.getFileContents Github.GithubEnterprise sampleConfig
           (serves (mkResponse (Github.mkFileResponse "aGVsbG8=" Github.base64 "u" "s" 5 "n") ""))
           (mkFileDescriptor "README.md" (Some "/contents/docs/a.md")) emptyWorld)
    = afterRequest emptyWorld req
    /\ req_url req
       = Some "https://git.example.com/api/v3/repos/acme/widgets/contents/docs/a.md".
Proof.
  destruct (github_getFileContents_url Github.GithubEnterprise sampleConfig
              (serves (mkResponse (Github.mkFileResponse "aGVsbG8=" Github.base64 "u" "s" 5 "n") ""))
              (mkFileDescriptor "README.md" (Some "/contents/docs/a.md")) emptyWorld)
    as [req [Hw [_ [_ [Hrel _]]]]].
  exists req. split; [exact Hw|].
  apply (Hrel "/contents/docs/a.md"); [reflexivity | discriminate | reflexivity].
Defined.

(** ** Listing, then reading *)

(** A file listed by the GitHub-family adapter whose URL starts with "http"
    is read from exactly that URL, and the bytes returned are the base64
    decoding of the content of the answer. *)
Theorem github_list_then_read
  (variant : Github.Variant) (config : TypedGitRepoConfig)
  (trees : Remote Github.Data Github.TreeResponse)
  (files : Remote Github.Data Github.FileResponse)
  (w w' : World Github.Data) (listing : Response Github.TreeResponse)
  (answer : Response Github.FileResponse) (listed : list Github.Tree) (t : Github.Tree) :
  (forall req, trees (List.length (requests w)) req = Normal listing) ->
  (forall req, files (List.length (requests w')) req = Normal answer) ->
  fst (Github.listFiles variant config trees w) = Resolved listed ->
  In t listed ->
  Js.startsWith (Github.tree_url t) "http" = true ->
  Github.type t = "blob"
  /\ In t (Github.tree (body listing))
  /\ exists req,
       Github.getFileContents variant config files (descriptorOfTree t) w'
       = (Resolved (OfBuffer (Buffer.fromBase64 (Github.content (body answer)))),
          afterRequest w' req)
       /\ req_url req = Some (Github.tree_url t).
Proof.
  intros Hlist Hfile Hres Hin Hhttp.
  rewrite (github_listFiles_run config variant trees w listing Hlist) in Hres.
  injection Hres as <-.
  apply filter_In in Hin. destruct Hin as [Hin Hblob].
  apply String.eqb_eq in Hblob.
  split; [exact Hblob|]. split; [exact Hin|].
  assert (Hne : Github.tree_url t <> "").
  { intros E. rewrite E in Hhttp. discriminate Hhttp. }
  unfold Github.getFileContents, Github.get, descriptorOfTree.
  cbn [fd_url fd_path]. rewrite (truthy_Some _ Hne). cbn [Js.template].
  rewrite Hhttp.
  eexists. split.
  { unfold async, bind, await, send, ret, afterRequest.
    rewrite Hfile. simpl. destruct (Github.encoding (body answer)). reflexivity. }
  reflexivity.
Qed.

Lemma github_list_then_read_witness :
  exists req,
    Github.getFileContents Github.Github sampleConfig
      (serves (mkResponse (Github.mkFileResponse "aGVsbG8=" Github.base64 "u" "s" 5 "n") ""))
      (descriptorOfTree
         (Github.mkTree "README.md" "100644" "blob" (Some 12%Z) "f1"
            "https://api.github.com/b/f1"))
      emptyWorld
    = (Resolved (OfBuffer (Buffer.fromBase64 "aGVsbG8=")), afterRequest emptyWorld req)
    /\ req_url req = Some "https://api.github.com/b/f1".
Proof.
  apply (github_list_then_read Github.Github sampleConfig
           (serves (mkResponse githubTree ""))
           (serves (mkResponse (Github.mkFileResponse "aGVsbG8=" Github.base64 "u" "s" 5 "n") ""))
           emptyWorld emptyWorld (mkResponse githubTree "")
           (mkResponse (Github.mkFileResponse "aGVsbG8=" Github.base64 "u" "s" 5 "n") "")
           [Github.mkTree "README.md" "100644" "blob" (Some 12%Z) "f1"
              "https://api.github.com/b/f1"]
           (Github.mkTree "README.md" "100644" "blob" (Some 12%Z) "f1"
              "https://api.github.com/b/f1")).
  - intros req. reflexivity.
  - intros req. reflexivity.
  - reflexivity.
  - left. reflexivity.
  - reflexivity.
Defined.

(** A file listed by the GitLab adapter is read from the base URL followed
    by "/repository/" and the path the tree gave, whatever path the listing
    shows for it; the bytes returned are the base64 decoding of the content
    of the answer. *)
Theorem gitlab_list_then_read
  (config : TypedGitRepoConfig)
  (trees : Remote Gitlab.GitlabHookData (list Gitlab.Tree))
  (files : Remote Gitlab.GitlabHookData Gitlab.FileResponse)
  (w w' : World Gitlab.GitlabHookData) (listing : Response (list Gitlab.Tree))
  (answer : Response Gitlab.FileResponse) (listed : list FileDescriptor)
  (file : FileDescriptor) :
  (forall req, trees (List.length (requests w)) req = Normal listing) ->
  (forall req, files (List.length (requests w')) req = Normal answer) ->
  fst (Gitlab.listFiles config trees w) = Resolved listed ->
  In file listed ->
  exists t req,
    In t (body listing) /\ Gitlab.type t = "blob"
    /\ fd_path file = Js.replace (Gitlab.path t) "files/" ""
    /\ Gitlab.getFileContents config files file w'
       = (Resolved (OfBuffer (Buffer.fromBase64 (Gitlab.content (body answer)))),
          afterRequest w' req)
    /\ req_url req
       = Some (Gitlab.getBaseUrl config ++ "/repository/" ++ Gitlab.path t)
    /\ gitlabRequest config req.
Proof.
  intros Hlist Hfile Hres Hin.
  rewrite (gitlab_listFiles_run config trees w listing Hlist) in Hres.
  injection Hres as <-.
  apply in_map_iff in Hin. destruct Hin as [t [<- Hin]].
  apply filter_In in Hin. destruct Hin as [Hin Hblob].
  apply String.eqb_eq in Hblob.
  exists t. eexists.
  split; [exact Hin|]. split; [exact Hblob|]. split; [reflexivity|].
  split.
  { unfold Gitlab.getFileContents, async, bind, await, send, ret, afterRequest.
    rewrite Hfile. simpl. destruct (Gitlab.encoding (body answer)). reflexivity. }
  split; [reflexivity | repeat split].
Qed.

(** A file listed by the Bitbucket adapter has the path of its entry and is
    read from the entry's own link; what is returned is the text of the
    answer. *)
Theorem bitbucket_list_then_read
  (config : TypedGitRepoConfig)
  (trees : Remote Bitbucket.BitbucketHookData Bitbucket.SrcResponse)
  (B : Type) (files : Remote Bitbucket.BitbucketHookData B)
  (w w' : World Bitbucket.BitbucketHookData) (listing : Response Bitbucket.SrcResponse)
  (answer : Response B) (listed : list FileDescriptor) (file : FileDescriptor) :
  (forall req, trees (List.length (requests w)) req = Normal listing) ->
  (forall req, files (List.length (requests w')) req = Normal answer) ->
  fst (Bitbucket.listFiles config trees w) = Resolved listed ->
  In file listed ->
  exists t req,
    In t (Bitbucket.values (body listing)) /\ Bitbucket.type t = "commit_file"
    /\ fd_path file = Bitbucket.path t
    /\ Bitbucket.getFileContents config files file w'
       = (Resolved (OfString (res_text answer)), afterRequest w' req)
    /\ req_url req = Some (Bitbucket.href (Bitbucket.self (Bitbucket.links t)))
    /\ bitbucketRequest config req.
Proof.
  intros Hlist Hfile Hres Hin.
  rewrite (bitbucket_listFiles_run config trees w listing Hlist) in Hres.
  injection Hres as <-.
  apply in_map_iff in Hin. destruct Hin as [t [<- Hin]].
  apply filter_In in Hin. destruct Hin as [Hin Hfiletype].
  apply String.eqb_eq in Hfiletype.
  exists t. eexists.
  split; [exact Hin|]. split; [exact Hfiletype|]. split; [reflexivity|].
  split.
  { unfold Bitbucket.getFileContents, async, bind, await, send, ret, afterRequest.
    rewrite Hfile. reflexivity. }
  split; [reflexivity | repeat split].
Qed.

Lemma gitlab_list_then_read_witness :
  exists t req,
    In t (body (mkResponse gitlabTree "")) /\ Gitlab.type t = "blob"
    /\ fd_path (mkFileDescriptor "a.yaml"
                  (Some "https://git.example.com/api/v4/projects/acme%2Fwidgets/repository/files/a.yaml"))
       = Js.replace (Gitlab.path t) "files/" ""
    /\ Gitlab.getFileContents sampleConfig (serves (mkResponse gitlabFile ""))
         (mkFileDescriptor "a.yaml"
            (Some "https://git.example.com/api/v4/projects/acme%2Fwidgets/repository/files/a.yaml"))
         emptyWorld
       = (Resolved (OfBuffer (Buffer.fromBase64 (Gitlab.content (body (mkResponse gitlabFile ""))))),
          afterRequest emptyWorld req)
    /\ req_url req
       = Some (Gitlab.getBaseUrl sampleConfig ++ "/repository/" ++ Gitlab.path t)
    /\ gitlabRequest sampleConfig req.
Proof.
  eapply (gitlab_list_then_read sampleConfig
            (serves (mkResponse gitlabTree "")) (serves (mkResponse gitlabFile ""))
            emptyWorld emptyWorld (mkResponse gitlabTree "") (mkResponse gitlabFile "")).
  - intros req. reflexivity.
  - intros req. reflexivity.
  - reflexivity.
  - left. reflexivity.
Defined.

Lemma bitbucket_list_then_read_witness :
  exists t req,
    In t (Bitbucket.values (body (mkResponse bitbucketSrc "")))
    /\ Bitbucket.type t = "commit_file"
    /\ fd_path (mkFileDescriptor "README.md" (Some "https://api.bitbucket.org/s/README.md"))
       = Bitbucket.path t
    /\ Bitbucket.getFileContents sampleConfig (serves (mkResponse tt "# widgets"))
         (mkFileDescriptor "README.md" (Some "https://api.bitbucket.org/s/README.md"))
         emptyWorld
       = (Resolved (OfString (res_text (mkResponse tt "# widgets"))),
          afterRequest emptyWorld req)
    /\ req_url req = Some (Bitbucket.href (Bitbucket.self (Bitbucket.links t)))
    /\ bitbucketRequest sampleConfig req.
Proof.
  eapply (bitbucket_list_then_read sampleConfig
            (serves (mkResponse bitbucketSrc "")) unit (serves (mkResponse tt "# widgets"))
            emptyWorld emptyWorld (mkResponse bitbucketSrc "") (mkResponse tt "# widgets")).
  - intros req. reflexivity.
  - intros req. reflexivity.
  - reflexivity.
  - left. reflexivity.
Defined.

(** ** Pull requests on the GitHub-family adapter, when the request succeeds *)

(** When the remote side answers, [getPullRequest] gives the number and the
    two branch refs of the answer; [createPullRequest] gives the number of
    the answer with the two branches it was asked for, and sends [draft] as
    false when the option is missing; [mergePullRequest] and
    [updatePullRequestBranch] give the message of the answer.  Each sends the
    one request named here; the pull number in a URL is a safe integer,
    which the runtime prints with all its digits. *)
Theorem github_pull_request_operations_succeed
  (variant : Github.Variant) (config : TypedGitRepoConfig) (draws : nat -> Q)
  (toNumber : string -> option Q) (fuel : nat) (w : World Github.Data) :
  (forall (remote : Remote Github.Data Github.PullBody) pullNumber answer,
      safeInteger pullNumber ->
      (forall req, remote (List.length (requests w)) req = Normal answer) ->
      exists req,
        Github.getPullRequest variant config draws toNumber (S fuel) remote pullNumber w
        = Some (Resolved
                  {| pullNumber := Github.number (body answer);
                     sourceBranch := Github.ref (Github.head (body answer));
                     targetBranch := Github.ref (Github.base (body answer)) |},
                afterRequest w req)
        /\ req_method req = GET
        /\ req_url req
           = Some (Github.getBaseUrl variant config ++ "/pulls/" ++ Js.show pullNumber))
  /\ (forall (remote : Remote Github.Data Github.PullBody) options answer,
      (forall req, remote (List.length (requests w)) req = Normal answer) ->
      exists req,
        Github.createPullRequest variant config draws toNumber (S fuel) remote options w
        = Some (Resolved
                  {| pullNumber := Github.number (body answer);
                     sourceBranch := cp_sourceBranch options;
                     targetBranch := cp_targetBranch options |},
                afterRequest w req)
        /\ req_method req = POST
        /\ req_url req = Some (Github.getBaseUrl variant config ++ "/pulls")
        /\ req_data req
           = Some (Github.PullData (cp_title options) (cp_sourceBranch options)
                     (cp_targetBranch options) (cp_maintainer_can_modify options)
                     (match cp_draft options with Some d => d | None => false end)))
  /\ (forall (remote : Remote Github.Data Github.MessageBody) options answer,
      safeInteger (mp_pullNumber options) ->
      (forall req, remote (List.length (requests w)) req = Normal answer) ->
      exists req,
        Github.mergePullRequest variant config draws toNumber (S fuel) remote options w
        = Some (Resolved (Github.body_message (body answer)), afterRequest w req)
        /\ req_method req = PUT
        /\ req_url req
           = Some (Github.getBaseUrl variant config ++ "/pulls/"
                   ++ Js.show (mp_pullNumber options) ++ "/merge")
        /\ req_data req
           = Some (Github.MergeData (mp_title options) (mp_message options)
                     (mp_method options)))
  /\ (forall (remote : Remote Github.Data Github.MessageBody) pullNumber answer,
      safeInteger pullNumber ->
      (forall req, remote (List.length (requests w)) req = Normal answer) ->
      exists req,
        Github.updatePullRequestBranch variant config draws toNumber (S fuel) remote
          pullNumber w
        = Some (Resolved (Github.body_message (body answer)), afterRequest w req)
        /\ req_method req = PUT
        /\ req_url req
           = Some (Github.getBaseUrl variant config ++ "/pulls/"
                   ++ Js.show pullNumber ++ "/update-branch")
        /\ req_data req = Some Github.EmptyData).
Proof.
  split; [|split; [|split]];
    [ intros remote arg answer _ Hok | intros remote arg answer Hok
    | intros remote arg answer _ Hok | intros remote arg answer _ Hok ];
    [ unfold Github.getPullRequest | unfold Github.createPullRequest
    | unfold Github.mergePullRequest | unfold Github.updatePullRequestBranch ];
    rewrite exec_async;
    unfold Github.get, Github.post, Github.put, async, bind, await, send, ret,
      afterRequest;
    rewrite Hok; eexists; (split; [reflexivity|]); repeat split.
Qed.

Lemma github_pull_request_operations_succeed_witness :
  safeInteger 7
  /\ (forall req : Request Github.Data,
        serves (mkResponse (Github.mkPullBody 7 (Github.mkRef "feature") (Github.mkRef "main")) "")
          (List.length (requests (@emptyWorld Github.Data))) req
        = Normal (mkResponse (Github.mkPullBody 7 (Github.mkRef "feature") (Github.mkRef "main")) ""))
  /\ exists req,
       Github.getPullRequest Github.Github sampleConfig halfDraws decimalToNumber 1
         (serves (mkResponse (Github.mkPullBody 7 (Github.mkRef "feature") (Github.mkRef "main")) ""))
         7 emptyWorld
       = Some (Resolved {| pullNumber := 7; sourceBranch := "feature"; targetBranch := "main" |},
               afterRequest emptyWorld req)
       /\ req_method req = GET
       /\ req_url req
          = Some (Github.getBaseUrl Github.Github sampleConfig ++ "/pulls/" ++ Js.show 7).
Proof.
  split; [split; reflexivity|]. split; [intros req; reflexivity|].
  apply (proj1 (github_pull_request_operations_succeed Github.Github sampleConfig
                  halfDraws decimalToNumber 0 emptyWorld)
           (serves (mkResponse (Github.mkPullBody 7 (Github.mkRef "feature") (Github.mkRef "main")) ""))
           7%Z
           (mkResponse (Github.mkPullBody 7 (Github.mkRef "feature") (Github.mkRef "main")) "")).
  - split; reflexivity.
  - intros req. reflexivity.
Defined.

(** ** Webhook creation, when the request succeeds *)

(** With the handler of [createWebhook], the promise is fulfilled exactly
    when the [try] block completes, and with its value. *)
Lemma tryCatch_fulfilled {D} (attempt : @M D string) (w : World D) (v : string) :
  fst (async (tryCatch attempt webhookHandler) w) = Resolved v
  <-> fst (attempt w) = Normal v.
Proof.
  unfold async, tryCatch.
  destruct (attempt w) as [[v' | cause] w']; simpl.
  - split; intros H; injection H as <-; reflexivity.
  - destruct (handler_reports cause w') as [raised [Hh _]]. rewrite Hh. simpl.
    split; intros H; discriminate H.
Qed.

Lemma awaited_request_completes {D B} (remote : Remote D B) (req : Request D)
  (k : Response B -> string) (w : World D) (v : string) :
  fst (bind (await (send remote req)) (fun response => ret (k response)) w) = Normal v
  <-> exists answer,
        remote (List.length (requests w)) req = Normal answer /\ k answer = v.
Proof.
  unfold bind, await, send, ret.
  destruct (remote (List.length (requests w)) req) as [answer | cause]; simpl.
  - split.
    + intros H. injection H as <-. exists answer. split; reflexivity.
    + intros [answer' [H1 H2]]. injection H1 as <-. rewrite H2. reflexivity.
  - split.
    + intros H. discriminate H.
    + intros [answer' [H1 _]]. discriminate H1.
Qed.

(** [createWebhook] is fulfilled exactly when its request is answered, and
    then with the id of the answer; the request is a POST to the hooks
    resource of the repository that carries the data built from the
    options. *)
Theorem createWebhook_succeeds_with_hook_id
  (config : TypedGitRepoConfig) (options : CreateWebhook) :
  (forall variant (remote : Remote Github.Data Github.HookBody) w,
      exists req,
        snd (Github.createWebhook variant config remote options w) = afterRequest w req
        /\ req_method req = POST
        /\ req_url req = Some (Github.getBaseUrl variant config ++ "/hooks")
        /\ req_data req = Some (Github.HookData (Github.buildWebhookData options))
        /\ (forall hookId,
              fst (Github.createWebhook variant config remote options w) = Resolved hookId
              <-> exists answer,
                    remote (List.length (requests w)) req = Normal answer
                    /\ Github.hook_id (body answer) = hookId))
  /\ (forall (remote : Remote Bitbucket.BitbucketHookData Bitbucket.HookBody) w,
      exists req,
        snd (Bitbucket.createWebhook config remote options w) = afterRequest w req
        /\ req_method req = POST
        /\ req_url req = Some (Bitbucket.getBaseUrl config ++ "/hooks")
        /\ req_data req = Some (Bitbucket.buildWebhookData options)
        /\ (forall hookId,
              fst (Bitbucket.createWebhook config remote options w) = Resolved hookId
              <-> exists answer,
                    remote (List.length (requests w)) req = Normal answer
                    /\ Bitbucket.hook_id (body answer) = hookId))
  /\ (forall (remote : Remote Gitlab.GitlabHookData Gitlab.HookBody) w data,
      Gitlab.buildWebhookData config (Gitlab.assignParams config options) = Normal data ->
      exists req,
        snd (Gitlab.createWebhook config remote options w) = afterRequest w req
        /\ req_method req = POST
        /\ req_url req = Some (Gitlab.getBaseUrl config ++ "/hooks")
        /\ req_data req = Some data
        /\ (forall hookId,
              fst (Gitlab.createWebhook config remote options w) = Resolved hookId
              <-> exists answer,
                    remote (List.length (requests w)) req = Normal answer
                    /\ Gitlab.hook_id (body answer) = hookId)).
Proof.
  split; [|split].
  - intros variant remote w. unfold Github.createWebhook, Github.post.
    eexists. split; [apply webhook_request_world|].
    do 3 (split; [reflexivity|]).
    intros hookId. rewrite tryCatch_fulfilled. apply awaited_request_completes.
  - intros remote w. unfold Bitbucket.createWebhook.
    eexists. split; [apply webhook_request_world|].
    do 3 (split; [reflexivity|]).
    intros hookId. rewrite tryCatch_fulfilled. apply awaited_request_completes.
  - intros remote w data Hdata. unfold Gitlab.createWebhook.
    eexists. split.
    { rewrite tryCatch_handler_world. unfold bind at 1. rewrite Hdata.
      unfold bind, await, send, ret, afterRequest.
      match goal with |- context [remote ?n ?r] => destruct (remote n r) end;
        reflexivity. }
    do 3 (split; [reflexivity|]).
    intros hookId. rewrite tryCatch_fulfilled. unfold bind at 1. rewrite Hdata.
    apply awaited_request_completes.
Qed.

Lemma createWebhook_succeeds_with_hook_id_witness :
  Gitlab.buildWebhookData sampleConfig
    (Gitlab.assignParams sampleConfig (mkCreateWebhook None None None None (Some "build")))
  = Normal {| Gitlab.id := "acme%2Fwidgets";
              Gitlab.url := "https://jenkins.local//project/build";
              Gitlab.push_events := Some true;
              Gitlab.enable_ssl_verification := Some true;
              Gitlab.token := None |}
  /\ exists req,
       snd (Gitlab.createWebhook sampleConfig (serves (mkResponse (Gitlab.mkHookBody "17") ""))
              (mkCreateWebhook None None None None (Some "build")) emptyWorld)
       = afterRequest emptyWorld req
       /\ req_method req = POST
       /\ req_url req = Some (Gitlab.getBaseUrl sampleConfig ++ "/hooks")
       /\ req_data req
          = Some {| Gitlab.id := "acme%2Fwidgets";
                    Gitlab.url := "https://jenkins.local//project/build";
                    Gitlab.push_events := Some true;
                    Gitlab.enable_ssl_verification := Some true;
                    Gitlab.token := None |}
       /\ (forall hookId,
             fst (Gitlab.createWebhook sampleConfig
                    (serves (mkResponse (Gitlab.mkHookBody "17") ""))
                    (mkCreateWebhook None None None None (Some "build")) emptyWorld)
             = Resolved hookId
             <-> exists answer,
                   serves (mkResponse (Gitlab.mkHookBody "17") "")
                     (List.length (requests (@emptyWorld Gitlab.GitlabHookData))) req
                   = Normal answer
                   /\ Gitlab.hook_id (body answer) = hookId).
Proof.
  split; [reflexivity|].
  apply (proj2 (proj2 (createWebhook_succeeds_with_hook_id sampleConfig
                         (mkCreateWebhook None None None None (Some "build"))))).
  reflexivity.
Defined.

(** ** The default branch on GitLab *)

(** [getDefaultBranch] of the GitLab adapter gives the name of the first
    branch of the answer that is flagged as default, and is fulfilled with
    [undefined], not rejected, exactly when no branch is flagged. *)
Theorem gitlab_getDefaultBranch_first_flagged
  (config : TypedGitRepoConfig)
  (remote : Remote Gitlab.GitlabHookData (list Gitlab.Branch))
  (w : World Gitlab.GitlabHookData) (answer : Response (list Gitlab.Branch)) :
  (forall req, remote (List.length (requests w)) req = Normal answer) ->
  exists result,
    fst (Gitlab.getDefaultBranch config remote w) = Resolved result
    /\ (result = None <-> forall b, In b (body answer) -> Gitlab.default b = false)
    /\ (forall name, result = Some name ->
          exists before b after,
            body answer = (before ++ b :: after)%list
            /\ Gitlab.default b = true
            /\ Gitlab.branch_name b = name
            /\ forall b', In b' before -> Gitlab.default b' = false).
Proof.
  intros Hok. unfold Gitlab.getDefaultBranch.
  eexists. split; [rewrite awaited_request_result, Hok; reflexivity|].
  generalize (body answer) as branches. intros branches.
  induction branches as [|b branches [IHnone IHsome]].
  - split.
    + split; [intros _ b [] | reflexivity].
    + intros name H. discriminate H.
  - cbn [filter]. destruct (Gitlab.default b) eqn:Hb.
    + split.
      * split; [intros H; discriminate H|].
        intros H. rewrite (H b (or_introl eq_refl)) in Hb. discriminate Hb.
      * intros name H. injection H as <-.
        exists [], b, branches. repeat split; [exact Hb | intros b' []].
    + split.
      * rewrite IHnone. split.
        -- intros H b' [<- | Hin]; [exact Hb | exact (H b' Hin)].
        -- intros H b' Hin. exact (H b' (or_intror Hin)).
      * intros name H. destruct (IHsome name H) as [before [b0 [after [E [Hd [Hn Hf]]]]]].
        exists (b :: before), b0, after. rewrite E.
        repeat split; [exact Hd | exact Hn |].
        intros b' [<- | Hin]; [exact Hb | exact (Hf b' Hin)].
Qed.

Lemma gitlab_getDefaultBranch_first_flagged_witness :
  (forall req : Request Gitlab.GitlabHookData,
      serves (mkResponse sampleBranches "")
        (List.length (requests (@emptyWorld Gitlab.GitlabHookData))) req
      = Normal (mkResponse sampleBranches ""))
  /\ exists result,
       fst (Gitlab.getDefaultBranch sampleConfig (serves (mkResponse sampleBranches ""))
              emptyWorld)
       = Resolved result
       /\ (result = None
           <-> forall b, In b (body (mkResponse sampleBranches "")) ->
                         Gitlab.default b = false)
       /\ (forall name, result = Some name ->
             exists before b after,
               body (mkResponse sampleBranches "") = (before ++ b :: after)%list
               /\ Gitlab.default b = true
               /\ Gitlab.branch_name b = name
               /\ forall b', In b' before -> Gitlab.default b' = false).
Proof.
  split; [intros req; reflexivity|].
  apply (gitlab_getDefaultBranch_first_flagged sampleConfig
           (serves (mkResponse sampleBranches "")) emptyWorld
           (mkResponse sampleBranches "")).
  intros req. reflexivity.
Defined.

Example gitlab_getDefaultBranch_run :
  fst (Gitlab.getDefaultBranch sampleConfig (serves (mkResponse sampleBranches "")) emptyWorld)
  = Resolved (Some "main")
  /\ fst (Gitlab.getDefaultBranch sampleConfig
            (serves (mkResponse [Gitlab.mkBranch "dev" false] "")) emptyWorld)
     = Resolved None.
Proof. split; reflexivity. Qed.

(** ** The URL of the GitLab tree request *)

Lemma join_nonempty (sep p : string) (rest : list string) :
  p <> "" -> Js.join sep (p :: rest) <> "".
Proof.
  intros Hp. destruct p as [|c p]; [contradiction|].
  destruct rest; simpl; discriminate.
Qed.

(** The parameters [buildUrl] keeps. *)
Lemma buildUrl_parameters (url : string) (params : list string) :
  Gitlab.buildUrl url params
  = match filter (fun p => negb (String.eqb p "")) params with
    | [] => url
    | kept => url ++ "?" ++ Js.join "&" kept
    end.
Proof.
  unfold Gitlab.buildUrl.
  destruct (filter (fun p => negb (String.eqb p "")) params) as [|p kept] eqn:Hf.
  - reflexivity.
  - assert (Hp : p <> "").
    { assert (Hin : In p (filter (fun p => negb (String.eqb p "")) params))
        by (rewrite Hf; left; reflexivity).
      apply filter_In in Hin. destruct Hin as [_ Hin].
      apply negb_true_iff, String.eqb_neq in Hin. exact Hin. }
    pose proof (join_nonempty "&" p kept Hp) as Hj.
    apply String.eqb_neq in Hj. rewrite Hj. reflexivity.
Qed.

(** [buildUrl] returns the URL as it is when no parameter is left after the
    empty ones are dropped, and otherwise the URL, a question mark and the
    parameters that are left, joined by ampersands. *)
Theorem gitlab_buildUrl_drops_empty_parameters (url : string) (params : list string) :
  Gitlab.buildUrl url params
  = match filter (fun p => negb (String.eqb p "")) params with
    | [] => url
    | kept => url ++ "?" ++ Js.join "&" kept
    end.
Proof. exact (buildUrl_parameters url params). Qed.

(** [listFiles] of the GitLab adapter asks for the tree of the repository
    with a page size of 1000, for the configured branch when there is one,
    and without a [ref] parameter when the branch is missing or empty. *)
Theorem gitlab_listFiles_url
  (config : TypedGitRepoConfig)
  (remote : Remote Gitlab.GitlabHookData (list Gitlab.Tree))
  (w : World Gitlab.GitlabHookData) :
  exists req,
    snd (Gitlab.listFiles config remote w) = afterRequest w req
    /\ req_method req = GET
    /\ (forall b, branch config = Some b -> b <> "" ->
        req_url req
        = Some ((Gitlab.getBaseUrl config ++ "/repository/tree")
                ++ "?ref=" ++ b ++ "&per_page=1000"))
    /\ (branch config = None \/ branch config = Some "" ->
        req_url req
        = Some ((Gitlab.getBaseUrl config ++ "/repository/tree") ++ "?per_page=1000")).
Proof.
  unfold Gitlab.listFiles.
  eexists. split; [apply awaited_request_world|].
  cbn [req_method req_url]. split; [reflexivity|].
  rewrite buildUrl_parameters. unfold Gitlab.branchParam. split.
  - intros b Hb Hne. rewrite Hb, (truthy_Some b Hne). simpl. reflexivity.
  - intros [Hb | Hb]; rewrite Hb; reflexivity.
Qed.

Lemma gitlab_listFiles_url_witness :
  exists req,
    snd (Gitlab.listFiles sampleConfig (serves (mkResponse gitlabTree "")) emptyWorld)
    = afterRequest emptyWorld req
    /\ req_url req
       = Some "https://git.example.com/api/v4/projects/acme%2Fwidgets/repository/tree?ref=main&per_page=1000".
Proof.
  destruct (gitlab_listFiles_url sampleConfig (serves (mkResponse gitlabTree "")) emptyWorld)
    as [req [Hw [_ [Hbranch _]]]].
  exists req. split; [exact Hw|].
  apply (Hbranch "main"); [reflexivity | discriminate].
Defined.

(** ** A configuration without a branch *)

(** When no branch is configured, [listFiles] of the GitHub-family adapter
    asks for the tree named "undefined", and [getRef] is
    "refs/heads/undefined" on the GitHub-family and GitLab adapters and
    undefined on Bitbucket. *)
Theorem missing_branch_is_not_guarded
  (variant : Github.Variant) (config : TypedGitRepoConfig)
  (remote : Remote Github.Data Github.TreeResponse) (w : World Github.Data) :
  branch config = None ->
  (exists req,
      snd (Github.listFiles variant config remote w) = afterRequest w req
      /\ req_url req
         = Some (Github.getBaseUrl variant config ++ "/git/trees/undefined"))
  /\ Github.getRef config = "refs/heads/undefined"
  /\ Gitlab.getRef config = "refs/heads/undefined"
  /\ Bitbucket.getRef config = None.
Proof.
  intros Hb. split.
  - unfold Github.listFiles, Github.get.
    eexists. split; [apply awaited_request_world|].
    rewrite Hb. reflexivity.
  - unfold Github.getRef, Gitlab.getRef, Bitbucket.getRef. rewrite Hb.
    repeat split.
Qed.

Lemma missing_branch_is_not_guarded_witness :
  branch (mkConfig "acme" "widgets" "https" None "alice" "s3cret" None) = None
  /\ (exists req,
         snd (Github.listFiles Github.Github
                (mkConfig "acme" "widgets" "https" None "alice" "s3cret" None)
                (serves (mkResponse githubTree "")) emptyWorld)
         = afterRequest emptyWorld req
         /\ req_url req = Some "https://api.github.com/repos/acme/widgets/git/trees/undefined").
Proof.
  split; [reflexivity|].
  apply (missing_branch_is_not_guarded Github.Github
           (mkConfig "acme" "widgets" "https" None "alice" "s3cret" None)
           (serves (mkResponse githubTree "")) emptyWorld eq_refl).
Defined.

(** ** Which occurrence of "files/" is removed *)

Lemma startsWith_long (x y p : string) :
  String.length p <= String.length x ->
  Js.startsWith (x ++ y) p = Js.startsWith x p.
Proof.
  revert x. induction p as [|a p IH]; intros x Hlen.
  - reflexivity.
  - destruct x as [|b x]; simpl in Hlen; [lia|].
    simpl. rewrite IH by lia. reflexivity.
Qed.

Lemma length_app (a b : string) :
  String.length (a ++ b) = String.length a + String.length b.
Proof.
  induction a as [|c a IH]; simpl; [reflexivity | rewrite IH; reflexivity].
Qed.

Lemma string_app_assoc (a b c : string) : (a ++ b) ++ c = a ++ b ++ c.
Proof.
  induction a as [|x a IH]; simpl; [reflexivity | rewrite IH; reflexivity].
Qed.

(** When the pattern, [stem] followed by [last], does not occur in [before]
    followed by [stem], its first occurrence in [before ++ pattern ++ rest]
    is the one after [before], and that one is replaced. *)
Lemma replace_first_occurrence (before stem rest rep : string) (last : ascii) :
  Js.includes (before ++ stem) (stem ++ String last "") = false ->
  Js.replace (before ++ (stem ++ String last "") ++ rest) (stem ++ String last "") rep
  = before ++ rep ++ rest.
Proof.
  induction before as [|c before IH]; intros Hno.
  - exact (replace_app (stem ++ String last "") rest rep).
  - change (String c before ++ stem) with (String c (before ++ stem)) in Hno.
    cbn [Js.includes] in Hno. apply orb_false_iff in Hno. destruct Hno as [Hhead Htail].
    change (String c before ++ (stem ++ String last "") ++ rest)
      with (String c (before ++ (stem ++ String last "") ++ rest)).
    cbn [Js.replace].
    assert (Hstart : Js.startsWith
                       (String c (before ++ (stem ++ String last "") ++ rest))
                       (stem ++ String last "") = false).
    { rewrite <- Hhead.
      change (String c (before ++ (stem ++ String last "") ++ rest))
        with (String c before ++ (stem ++ String last "") ++ rest).
      rewrite (string_app_assoc stem (String last "") rest).
      rewrite <- (string_app_assoc (String c before) stem (String last "" ++ rest)).
      apply startsWith_long.
      rewrite !length_app. cbn [String.length]. rewrite ?length_app. lia. }
    rewrite Hstart. simpl. f_equal. apply IH. exact Htail.
Qed.

(** The GitLab adapter removes from the path of a listed file the first
    "files/" and only that one: with no "files/" beginning inside [before],
    the path [before ++ "files/" ++ rest] is listed as [before ++ rest],
    whatever [rest] holds. *)
Theorem gitlab_listFiles_removes_first_occurrence
  (config : TypedGitRepoConfig)
  (remote : Remote Gitlab.GitlabHookData (list Gitlab.Tree))
  (w : World Gitlab.GitlabHookData) (answer : Response (list Gitlab.Tree))
  (listed : list FileDescriptor) :
  (forall req, remote (List.length (requests w)) req = Normal answer) ->
  fst (Gitlab.listFiles config remote w) = Resolved listed ->
  forall t before rest,
    In t (body answer) ->
    Gitlab.type t = "blob" ->
    Gitlab.path t = before ++ "files/" ++ rest ->
    Js.includes (before ++ "files") "files/" = false ->
    In {| fd_path := before ++ rest;
          fd_url := Some (Gitlab.getBaseUrl config ++ "/repository/" ++ Gitlab.path t) |}
       listed.
Proof.
  intros Hok Hres t before rest Hin Hblob Hpath Hno.
  rewrite (gitlab_listFiles_run config remote w answer Hok) in Hres.
  injection Hres as <-.
  apply in_map_iff. exists t. split.
  - f_equal. rewrite Hpath.
    exact (replace_first_occurrence before "files" rest "" "/"%char Hno).
  - apply filter_In. split; [exact Hin|]. apply String.eqb_eq. exact Hblob.
Qed.

Lemma gitlab_listFiles_removes_first_occurrence_witness :
  In {| fd_path := "src/" ++ "b.txt";
        fd_url := Some (Gitlab.getBaseUrl sampleConfig ++ "/repository/"
                        ++ Gitlab.path (Gitlab.mkTree "b2" "b.txt" "blob" "src/files/b.txt" "100644")) |}
     [ {| fd_path := "a.yaml";
          fd_url := Some "https://git.example.com/api/v4/projects/acme%2Fwidgets/repository/files/a.yaml" |};
       {| fd_path := "src/b.txt";
          fd_url := Some "https://git.example.com/api/v4/projects/acme%2Fwidgets/repository/src/files/b.txt" |} ].
Proof.
  apply (gitlab_listFiles_removes_first_occurrence sampleConfig
           (serves (mkResponse gitlabTree "")) emptyWorld (mkResponse gitlabTree "")
           _ (fun _ => eq_refl) eq_refl
           (Gitlab.mkTree "b2" "b.txt" "blob" "src/files/b.txt" "100644") "src/" "b.txt").
  - right. right. left. reflexivity.
  - reflexivity.
  - reflexivity.
  - reflexivity.
Defined.

(** ** When the GitLab hook data can be built *)

Section PatternMatches.

Lemma lines_nonempty (s : string) : Js.lines s <> [].
Proof.
  destruct s as [|c s]; simpl; [discriminate|].
  destruct (Js.isLineTerminator c); [discriminate|].
  destruct (Js.lines s); discriminate.
Qed.

(** A pattern without line terminators heads a string exactly when it heads
    the first line of the string. *)
Lemma startsWith_first_line (sep s : string) :
  singleLine sep = true ->
  Js.startsWith s sep
  = match Js.lines s with
    | l :: _ => Js.startsWith l sep
    | [] => false
    end.
Proof.
  revert s. induction sep as [|a sep IH]; intros s Hsep.
  - simpl. pose proof (lines_nonempty s). destruct (Js.lines s); [contradiction|].
    reflexivity.
  - simpl in Hsep. apply andb_true_iff in Hsep. destruct Hsep as [Ha Hsep].
    apply negb_true_iff in Ha.
    destruct s as [|c s]; [reflexivity|].
    cbn [Js.lines]. destruct (Js.isLineTerminator c) eqn:Hc.
    + simpl. destruct (Ascii.eqb_spec a c) as [->|]; [congruence | reflexivity].
    + pose proof (lines_nonempty s) as Hne. specialize (IH s Hsep).
      destruct (Js.lines s) as [|l ls]; [contradiction|].
      cbn [Js.startsWith]. rewrite IH. reflexivity.
Qed.

(** Such a pattern occurs in a string exactly when it occurs in one of its
    lines. *)
Lemma includes_lines (sep s : string) :
  singleLine sep = true ->
  Js.includes s sep = existsb (fun l => Js.includes l sep) (Js.lines s).
Proof.
  intros Hsep. induction s as [|c s IH].
  - simpl. rewrite !orb_false_r. reflexivity.
  - cbn [Js.includes]. rewrite (startsWith_first_line sep (String c s) Hsep), IH.
    cbn [Js.lines]. destruct (Js.isLineTerminator c).
    + cbn [existsb Js.includes]. rewrite orb_false_r. reflexivity.
    + pose proof (lines_nonempty s) as Hne.
      destruct (Js.lines s) as [|l ls]; [contradiction|].
      cbn [existsb Js.includes]. rewrite orb_assoc. reflexivity.
Qed.

Lemma splitLast_present (sep line : string) :
  Js.includes line sep = true -> Js.splitLast sep line <> None.
Proof.
  induction line as [|c line IH]; simpl; intros H.
  - rewrite orb_false_r in H. rewrite H. discriminate.
  - destruct (Js.splitLast sep line) as [[before after]|]; [discriminate|].
    apply orb_true_iff in H. destruct H as [H | H].
    + rewrite H. discriminate.
    + exfalso. apply (IH H). reflexivity.
Qed.

Lemma firstSome_none {A B} (f : A -> option B) (l : list A) :
  Js.firstSome f l = None <-> forall x, In x l -> f x = None.
Proof.
  induction l as [|x l IH]; simpl.
  - split; [intros _ y [] | reflexivity].
  - destruct (f x) eqn:Hx.
    + split; [discriminate|]. intros H.
      rewrite (H x (or_introl eq_refl)) in Hx. discriminate Hx.
    + rewrite IH. split.
      * intros H y [<- | Hy]; [exact Hx | exact (H y Hy)].
      * intros H y Hy. exact (H y (or_intror Hy)).
Qed.

(** The URL pattern fails exactly on the strings without [://]. *)
Lemma execUrlPattern_none (s : string) :
  Gitlab.execUrlPattern s = None <-> Js.includes s "://" = false.
Proof.
  unfold Gitlab.execUrlPattern.
  rewrite firstSome_none, (includes_lines "://" s eq_refl).
  split.
  - intros H. apply not_true_is_false. intros Hex.
    apply existsb_exists in Hex. destruct Hex as [l [Hin Hl]].
    exact (splitLast_present "://" l Hl (H l Hin)).
  - intros H l Hin. apply splitLast_absent.
    apply not_true_is_false. intros Hl.
    assert (Hex : existsb (fun l => Js.includes l "://") (Js.lines s) = true)
      by (apply existsb_exists; exists l; split; assumption).
    rewrite H in Hex. discriminate Hex.
Qed.

End PatternMatches.

(** On the GitLab adapter the Jenkins URL decides whether a webhook can be
    created at all.  When the URL that is given has no [://], [createWebhook]
    rejects with an [UnknownWebhookError] around a [TypeError] and sends
    nothing, whether or not a [webhookUrl] is given; when it has one, and
    always when none is given, the data for the hook is built. *)
Theorem gitlab_createWebhook_needs_url_scheme
  (config : TypedGitRepoConfig)
  (remote : Remote Gitlab.GitlabHookData Gitlab.HookBody)
  (options : CreateWebhook) (w : World Gitlab.GitlabHookData) :
  (Js.includes (jenkinsUrlOrDefault options) "://" = false ->
   exists msg,
     Gitlab.createWebhook config remote options w
     = (Rejected (UnknownWebhookError msg (TypeError msg)), w))
  /\ (Js.includes (jenkinsUrlOrDefault options) "://" = true ->
      exists data,
        Gitlab.buildWebhookData config (Gitlab.assignParams config options) = Normal data)
  /\ (jenkinsUrl options = None ->
      exists data,
        Gitlab.buildWebhookData config (Gitlab.assignParams config options) = Normal data).
Proof.
  assert (Hbuilt : Js.includes (jenkinsUrlOrDefault options) "://" = true ->
                   exists data,
                     Gitlab.buildWebhookData config (Gitlab.assignParams config options)
                     = Normal data).
  { intros Hin. unfold Gitlab.buildWebhookData.
    change (match Gitlab.p_jenkinsUrl (Gitlab.assignParams config options) with
            | Some u => u
            | None => "https://jenkins.local/"
            end) with (jenkinsUrlOrDefault options).
    destruct (Gitlab.execUrlPattern (jenkinsUrlOrDefault options)) as [[proto hst]|] eqn:He.
    - eexists. reflexivity.
    - apply execUrlPattern_none in He. rewrite He in Hin. discriminate Hin. }
  split; [|split].
  - intros Hno. apply execUrlPattern_none in Hno.
    unfold Gitlab.createWebhook, async, tryCatch. unfold bind at 1.
    unfold Gitlab.buildWebhookData.
    change (match Gitlab.p_jenkinsUrl (Gitlab.assignParams config options) with
            | Some u => u
            | None => "https://jenkins.local/"
            end) with (jenkinsUrlOrDefault options).
    rewrite Hno. eexists. reflexivity.
  - exact Hbuilt.
  - intros Hnone. apply Hbuilt. unfold jenkinsUrlOrDefault. rewrite Hnone. reflexivity.
Qed.

Lemma gitlab_createWebhook_needs_url_scheme_witness :
  Js.includes (jenkinsUrlOrDefault
                 (mkCreateWebhook (Some "https://ci.example.com/hook") (Some "jenkins.local")
                    None None None)) "://" = false
  /\ exists msg,
       Gitlab.createWebhook sampleConfig (serves (mkResponse (Gitlab.mkHookBody "17") ""))
         (mkCreateWebhook (Some "https://ci.example.com/hook") (Some "jenkins.local")
            None None None) emptyWorld
       = (Rejected (UnknownWebhookError msg (TypeError msg)), emptyWorld).
Proof.
  split; [reflexivity|].
  apply (proj1 (gitlab_createWebhook_needs_url_scheme sampleConfig
                  (serves (mkResponse (Gitlab.mkHookBody "17") ""))
                  (mkCreateWebhook (Some "https://ci.example.com/hook") (Some "jenkins.local")
                     None None None) emptyWorld)).
  reflexivity.
Defined.

(** For a Jenkins URL (the one given, or the default) [protocol://rest] on
    one line, with no further [://] in [rest], the GitLab hook asks for SSL
    verification exactly when the protocol is "https", in lower case,
    whatever the [webhookUrl] is; its id is the owner and the repository of
    the configuration joined by "%2F", and it carries no token. *)
Theorem gitlab_ssl_verification_follows_jenkins_url
  (config : TypedGitRepoConfig) (options : CreateWebhook) (proto rest : string) :
  jenkinsUrlOrDefault options = proto ++ "://" ++ rest ->
  singleLine proto = true ->
  singleLine rest = true ->
  Js.includes rest "://" = false ->
  exists data,
    Gitlab.buildWebhookData config (Gitlab.assignParams config options) = Normal data
    /\ Gitlab.enable_ssl_verification data = Some (String.eqb proto "https")
    /\ Gitlab.id data = owner config ++ "%2F" ++ repo config
    /\ Gitlab.token data = None.
Proof.
  intros Hurl Hp Hr Hrest. unfold Gitlab.buildWebhookData.
  change (match Gitlab.p_jenkinsUrl (Gitlab.assignParams config options) with
          | Some u => u
          | None => "https://jenkins.local/"
          end) with (jenkinsUrlOrDefault options).
  rewrite Hurl, (execUrlPattern_url proto rest Hp Hr Hrest).
  eexists. split; [reflexivity|]. repeat split.
Qed.

Lemma gitlab_ssl_verification_follows_jenkins_url_witness :
  jenkinsUrlOrDefault
    (mkCreateWebhook (Some "https://ci.example.com/hook") (Some "HTTPS://jenkins.example.com")
       None None None)
  = "HTTPS" ++ "://" ++ "jenkins.example.com"
  /\ exists data,
       Gitlab.buildWebhookData sampleConfig
         (Gitlab.assignParams sampleConfig
            (mkCreateWebhook (Some "https://ci.example.com/hook")
               (Some "HTTPS://jenkins.example.com") None None None))
       = Normal data
       /\ Gitlab.enable_ssl_verification data = Some (String.eqb "HTTPS" "https")
       /\ Gitlab.id data = owner sampleConfig ++ "%2F" ++ repo sampleConfig
       /\ Gitlab.token data = None.
Proof.
  split; [reflexivity|].
  apply (gitlab_ssl_verification_follows_jenkins_url sampleConfig
           (mkCreateWebhook (Some "https://ci.example.com/hook")
              (Some "HTTPS://jenkins.example.com") None None None)
           "HTTPS" "jenkins.example.com"); reflexivity.
Defined.

(** With a second [://] the first group of the pattern runs up to the last
    one, and the verification is off although the URL starts with
    "https". *)
Example gitlab_ssl_verification_second_scheme_run :
  Gitlab.buildWebhookData sampleConfig
    (Gitlab.assignParams sampleConfig
       (mkCreateWebhook (Some "https://ci.example.com/hook")
          (Some "https://host/path?next=http://other") None None None))
  = Normal {| Gitlab.id := "acme%2Fwidgets";
              Gitlab.url := "https://ci.example.com/hook";
              Gitlab.push_events := Some true;
              Gitlab.enable_ssl_verification := Some false;
              Gitlab.token := None |}.
Proof. reflexivity. Qed.

(** ** The handler of the retry wrapper *)

Section Handler.

Variable draws : nat -> Q.
Variable toNumber : string -> option Q.

(** When the call of the wrapped function itself throws an error that is
    not a 403 of the secondary rate limit, [exec] hands one entry to the
    debug logger, with the error, whether it is a response error and its
    status, and rejects with that same error; it sets no timer and does not
    call the function again. *)
Theorem exec_rethrows_what_the_call_throws {T} (fuel : nat)
  (f : @M Github.Data (promise T)) (name : string)
  (w w1 : World Github.Data) (err : JsError) :
  f w = (Throw err, w1) ->
  isSecondaryRateLimit err = false ->
  Github.exec draws toNumber (S fuel) f name w
  = Some (Rejected err,
          mkWorld (requests w1) (timers w1)
            (debugLog w1 ++ [ErrorCallingApi name err (isResponseError err) (status err)])%list
            (randomCalls w1)).
Proof.
  intros Hf Hno. unfold Github.exec. cbn [Github.execLoop]. rewrite Hf.
  destruct err as [m | m | m st r | m e | m e]; try reflexivity.
  cbn [isSecondaryRateLimit] in Hno.
  destruct (st =? 403)%Z; [|reflexivity].
  destruct (Js.testGlobal "secondary rate limit" 0 m) as [matched li].
  cbn [andb fst] in Hno. subst matched. reflexivity.
Qed.


(** When the call of the wrapped function throws a 403 of the secondary rate
    limit, [exec] draws one random number, logs the delay, sets one timer
    with it and calls the function again; if that call gives a promise, the
    promise is the outcome. *)
Theorem exec_waits_then_calls_again {T} (fuel : nat)
  (f : @M Github.Data (promise T)) (name : string)
  (w w1 w3 : World Github.Data) (msg : string) (response : ErrorResponse)
  (p : promise T) :
  f w = (Throw (ResponseError msg 403 response), w1) ->
  isSecondaryRateLimit (ResponseError msg 403 response) = true ->
  f (mkWorld (requests w1)
       (timers w1 ++ [Github.waitingTime toNumber response (draws (randomCalls w1))])%list
       (debugLog w1
          ++ [GotSecondaryRateLimit name
                (Github.waitingTime toNumber response (draws (randomCalls w1)))])%list
       (S (randomCalls w1)))
  = (Normal p, w3) ->
  Github.exec draws toNumber (S (S fuel)) f name w = Some (p, w3).
Proof.
  intros Hf Hyes Hagain. unfold Github.exec. cbn [Github.execLoop]. rewrite Hf.
  cbn [isSecondaryRateLimit] in Hyes. cbn [Z.eqb Pos.eqb andb] in Hyes |- *.
  destruct (Js.testGlobal "secondary rate limit" 0 msg) as [matched li].
  cbn [fst] in Hyes. subst matched.
  unfold bind, random, debug, await, timer. cbn [fst snd].
  cbn [requests timers debugLog randomCalls].
  rewrite Hagain. reflexivity.
Qed.


End Handler.

Lemma exec_rethrows_what_the_call_throws_witness :
  throwsUntilTimer (D:=Github.Data) (T:=string) forbidden "done" emptyWorld
  = (Throw forbidden, emptyWorld)
  /\ isSecondaryRateLimit forbidden = false
  /\ Github.exec halfDraws decimalToNumber 1 (throwsUntilTimer forbidden "done") "op" emptyWorld
     = Some (Rejected (A:=string) forbidden,
             mkWorld [] [] [ErrorCallingApi "op" forbidden true (Some 403%Z)] 0).
Proof.
  split; [reflexivity|]. split; [reflexivity|].
  apply (exec_rethrows_what_the_call_throws halfDraws decimalToNumber (T:=string) 0
           (throwsUntilTimer forbidden "done") "op" emptyWorld emptyWorld forbidden);
    reflexivity.
Defined.

Lemma exec_waits_then_calls_again_witness :
  Github.exec halfDraws decimalToNumber 2
    (throwsUntilTimer (D:=Github.Data) rateLimited "done") "op" emptyWorld
  = Some (Resolved "done",
          mkWorld [] [Some (5000 # 2)%Q]
            [GotSecondaryRateLimit "op" (Some (5000 # 2)%Q)] 1).
Proof.
  apply (exec_waits_then_calls_again halfDraws decimalToNumber (T:=string) 0
           (throwsUntilTimer rateLimited "done") "op" emptyWorld emptyWorld
           (mkWorld [] [Some (5000 # 2)%Q]
              [GotSecondaryRateLimit "op" (Some (5000 # 2)%Q)] 1)
           "You have exceeded a secondary rate limit"
           {| header := [("Retry-After", "2")];
              text := "You have exceeded a secondary rate limit" |}
           (Resolved "done")); reflexivity.
Defined.

(** ** The state of the rate-limit pattern *)

Lemma drop_length (s : string) : Js.drop (String.length s) s = "".
Proof.
  induction s as [|c s IH]; simpl; [reflexivity | exact IH].
Qed.

(** On a one-line message that holds the needle, the first test of the
    pattern succeeds and leaves [lastIndex] at the end of the message. *)
Lemma testGlobal_first (needle msg : string) :
  singleLine msg = true ->
  Js.includes msg needle = true ->
  Js.testGlobal needle 0 msg = (true, String.length msg).
Proof.
  intros Hline Hinc. unfold Js.testGlobal. cbn [Nat.ltb Nat.leb Js.drop].
  rewrite (lines_singleLine msg Hline). cbn [Js.searchLines].
  rewrite Hinc. reflexivity.
Qed.

(** The next test on the same message starts there, finds nothing and puts
    [lastIndex] back to 0. *)
Lemma testGlobal_second (needle msg : string) :
  Js.includes "" needle = false ->
  Js.testGlobal needle (String.length msg) msg = (false, 0).
Proof.
  intros Hne. unfold Js.testGlobal.
  rewrite Nat.ltb_irrefl, drop_length. cbn [Js.lines Js.searchLines].
  rewrite Hne. reflexivity.
Qed.

(** The rate-limit pattern of [exec] is global and made once per call, so
    its tests alternate.  When the call of the wrapped function throws the
    same one-line 403 of the secondary rate limit every time, [exec] waits
    after the first failure only: the second failure is logged and handed to
    the caller. *)
Theorem exec_gives_up_on_second_rate_limit {T} (draws : nat -> Q)
  (toNumber : string -> option Q) (fuel : nat)
  (f : @M Github.Data (promise T)) (name : string) (w : World Github.Data)
  (msg : string) (response : ErrorResponse) :
  (forall w', f w' = (Throw (ResponseError msg 403 response), w')) ->
  singleLine msg = true ->
  Js.includes msg "secondary rate limit" = true ->
  Github.exec draws toNumber (S (S fuel)) f name w
  = Some (Rejected (ResponseError msg 403 response),
          mkWorld (requests w)
            (timers w ++ [Github.waitingTime toNumber response (draws (randomCalls w))])%list
            (debugLog w
               ++ [GotSecondaryRateLimit name
                     (Github.waitingTime toNumber response (draws (randomCalls w)))]
               ++ [ErrorCallingApi name (ResponseError msg 403 response) true (Some 403%Z)])%list
            (S (randomCalls w))).
Proof.
  intros Hf Hline Hinc. unfold Github.exec. cbn [Github.execLoop].
  rewrite Hf. cbn [Z.eqb Pos.eqb].
  rewrite (testGlobal_first "secondary rate limit" msg Hline Hinc).
  unfold bind at 1 2, random, debug at 1, await, timer.
  cbn [requests timers debugLog randomCalls].
  rewrite Hf. cbn [Z.eqb Pos.eqb].
  rewrite (testGlobal_second "secondary rate limit" msg eq_refl).
  unfold bind, debug, throw. cbn [requests timers debugLog randomCalls adopt].
  rewrite <- app_assoc. reflexivity.
Qed.

Lemma exec_gives_up_on_second_rate_limit_witness :
  (forall w' : World Github.Data,
      alwaysThrows (T:=string) rateLimited w' = (Throw rateLimited, w'))
  /\ singleLine "You have exceeded a secondary rate limit" = true
  /\ Js.includes "You have exceeded a secondary rate limit" "secondary rate limit" = true
  /\ Github.exec halfDraws decimalToNumber 2 (alwaysThrows (T:=string) rateLimited) "op"
       emptyWorld
     = Some (Rejected rateLimited,
             mkWorld [] [Some (5000 # 2)%Q]
               [GotSecondaryRateLimit "op" (Some (5000 # 2)%Q);
                ErrorCallingApi "op" rateLimited true (Some 403%Z)] 1).
Proof.
  split; [intros w'; reflexivity|]. split; [reflexivity|]. split; [reflexivity|].
  apply (exec_gives_up_on_second_rate_limit (T:=string) halfDraws decimalToNumber 0
           (alwaysThrows rateLimited) "op" emptyWorld
           "You have exceeded a secondary rate limit"
           {| header := [("Retry-After", "2")];
              text := "You have exceeded a secondary rate limit" |});
    [intros w'; reflexivity | reflexivity | reflexivity].
Defined.

(** ** The logger *)

(** What a logging call prints: the message alone when the context is
    falsy (missing, null, false, 0, NaN or the empty string), the message
    and the context otherwise. *)
Lemma printed_context (context : Logging.JsValue) :
  (if Logging.truthy context then Some context else None) = Some context
  <-> Logging.truthy context = true.
Proof.
  destruct (Logging.truthy context); split; intros H;
    try reflexivity; discriminate H.
Qed.

(** [debug] and [error] print nothing unless the logger was built with
    [verbose] true; built so, each prints exactly one line, [debug] through
    [console.log] and [error] through [console.error], with the context
    passed on only when it is truthy.  [log] and [logn] print whatever
    [verbose] is, and [logn] drops the context. *)
Theorem logger_prints_debug_and_error_only_when_verbose
  (this : Logging.VerboseLogger) (message : string) (context : Logging.JsValue)
  (console : Logging.Console) :
  (Logging.verbose this <> Some true ->
   Logging.debug this message context console = console
   /\ Logging.error this message context console = console)
  /\ (Logging.verbose this = Some true ->
      exists shown,
        Logging.debug this message context console
        = (console ++ [Logging.ConsoleLog message shown])%list
        /\ Logging.error this message context console
           = (console ++ [Logging.ConsoleError message shown])%list
        /\ (shown = Some context \/ shown = None)
        /\ (shown = Some context <-> Logging.truthy context = true))
  /\ (exists shown,
        Logging.log this message context console
        = (console ++ [Logging.ConsoleLog message shown])%list
        /\ (shown = Some context <-> Logging.truthy context = true))
  /\ Logging.logn this message context console
     = (console ++ [Logging.StdoutWrite message])%list.
Proof.
  split; [|split; [|split]].
  - intros Hquiet. unfold Logging.debug, Logging.error, Logging.notVerbose.
    destruct (Logging.verbose this) as [[|]|]; [contradiction Hquiet| |];
      split; reflexivity.
  - intros Hverbose. unfold Logging.debug, Logging.error, Logging.notVerbose.
    rewrite Hverbose. cbn [negb].
    exists (if Logging.truthy context then Some context else None).
    destruct (Logging.truthy context); repeat split; auto; discriminate.
  - exists (if Logging.truthy context then Some context else None).
    unfold Logging.log. destruct (Logging.truthy context);
      repeat split; auto; discriminate.
  - reflexivity.
Qed.

Lemma logger_prints_debug_and_error_only_when_verbose_witness :
  Logging.verbose (Logging.mkVerboseLogger (Some false)) <> Some true
  /\ Logging.debug (Logging.mkVerboseLogger (Some false)) "calling api"
       (Logging.VNumber 403) [] = []
  /\ Logging.error (Logging.mkVerboseLogger (Some false)) "calling api"
       (Logging.VNumber 403) [] = [].
Proof.
  split; [discriminate|].
  apply (proj1 (logger_prints_debug_and_error_only_when_verbose
                  (Logging.mkVerboseLogger (Some false)) "calling api"
                  (Logging.VNumber 403) [])).
  discriminate.
Defined.

(** A logger made by [logFactory] never prints a debug or an error message,
    whatever the configuration asks for and whatever the environment holds:
    the factory works out [verbose] and then builds the logger without
    it. *)
Theorem logFactory_logger_never_prints_debug
  (env : list (string * string)) (config : Logging.FactoryConfig)
  (message : string) (context : Logging.JsValue) (console : Logging.Console) :
  Logging.debug (Logging.logFactory env config tt) message context console = console
  /\ Logging.error (Logging.logFactory env config tt) message context console = console
  /\ Logging.log (Logging.logFactory env config tt) message context console <> console.
Proof.
  split; [reflexivity|]. split; [reflexivity|].
  unfold Logging.log. intros H.
  assert (Hlen : forall o : Logging.Output,
             List.length (console ++ [o])%list <> List.length console)
    by (intros o; rewrite List.length_app; simpl; lia).
  destruct (Logging.truthy context);
    apply (f_equal (@List.length Logging.Output)) in H; exact (Hlen _ H).
Qed.

(** A logger made by [verboseLoggerFactory] prints debug messages exactly
    when the factory was given true, or was given nothing while the
    environment variable [VERBOSE_LOGGING] is the string "true". *)
Theorem verboseLoggerFactory_verbosity
  (env : list (string * string)) (verbose : option bool)
  (message : string) (context : Logging.JsValue) (console : Logging.Console) :
  Logging.debug (Logging.verboseLoggerFactory env verbose tt) message context console
  <> console
  <-> verbose = Some true
      \/ (verbose = None /\ lookup "VERBOSE_LOGGING" env = Some "true").
Proof.
  assert (Hlen : forall o : Logging.Output, (console ++ [o])%list <> console).
  { intros o H. apply (f_equal (@List.length Logging.Output)) in H.
    rewrite List.length_app in H. simpl in H. lia. }
  unfold Logging.verboseLoggerFactory, Logging.debug, Logging.notVerbose.
  cbn [Logging.verbose].
  destruct verbose as [[|]|]; cbn [negb].
  - split; [intros _; left; reflexivity|]. intros _.
    destruct (Logging.truthy context); apply Hlen.
  - split; [intros H; contradiction H; reflexivity|].
    intros [H | [H _]]; discriminate H.
  - destruct (lookup "VERBOSE_LOGGING" env) as [v|] eqn:Hv.
    + destruct (String.eqb_spec v "true") as [-> | Hne]; cbn [negb].
      * split; [intros _; right; split; reflexivity|]. intros _.
        destruct (Logging.truthy context); apply Hlen.
      * split; [intros H; contradiction H; reflexivity|].
        intros [H | [_ H]]; [discriminate H|]. injection H as H. contradiction.
    + cbn [negb]. split; [intros H; contradiction H; reflexivity|].
      intros [H | [_ H]]; discriminate H.
Qed.

(** ** Line breaks in base64 content *)

Lemma sextets_skips_whitespace (a b : string) (c : ascii) :
  isWhitespace c = true ->
  Buffer.sextets (a ++ String c b) = Buffer.sextets (a ++ b).
Proof.
  intros Hc. induction a as [|x a IH].
  - unfold isWhitespace in Hc.
    repeat (apply orb_true_iff in Hc; destruct Hc as [Hc | Hc]);
      apply Ascii.eqb_eq in Hc; subst c; reflexivity.
  - simpl. rewrite IH. reflexivity.
Qed.

(** A space, tab or line break anywhere in the base64 content of an answer
    does not change the bytes [getFileContents] returns, on the
    GitHub-family and on the GitLab adapter. *)
Theorem getFileContents_ignores_whitespace
  (config : TypedGitRepoConfig) (fd : FileDescriptor) (a b : string) (c : ascii) :
  isWhitespace c = true ->
  (forall variant (r1 r2 : Remote Github.Data Github.FileResponse) w answer1 answer2,
      (forall req, r1 (List.length (requests w)) req = Normal answer1) ->
      (forall req, r2 (List.length (requests w)) req = Normal answer2) ->
      Github.content (body answer1) = a ++ String c b ->
      Github.content (body answer2) = a ++ b ->
      fst (Github.getFileContents variant config r1 fd w)
      = fst (Github.getFileContents variant config r2 fd w))
  /\ (forall (r1 r2 : Remote Gitlab.GitlabHookData Gitlab.FileResponse) w answer1 answer2,
      (forall req, r1 (List.length (requests w)) req = Normal answer1) ->
      (forall req, r2 (List.length (requests w)) req = Normal answer2) ->
      Gitlab.content (body answer1) = a ++ String c b ->
      Gitlab.content (body answer2) = a ++ b ->
      fst (Gitlab.getFileContents config r1 fd w)
      = fst (Gitlab.getFileContents config r2 fd w)).
Proof.
  intros Hc. split.
  - intros variant r1 r2 w answer1 answer2 H1 H2 E1 E2.
    unfold Github.getFileContents, Github.get.
    rewrite !awaited_request_result, H1, H2, E1, E2.
    destruct (Github.encoding (body answer1)), (Github.encoding (body answer2)).
    unfold Github.newBuffer, Buffer.fromBase64.
    rewrite (sextets_skips_whitespace a b c Hc). reflexivity.
  - intros r1 r2 w answer1 answer2 H1 H2 E1 E2.
    unfold Gitlab.getFileContents.
    rewrite !awaited_request_result, H1, H2, E1, E2.
    destruct (Gitlab.encoding (body answer1)), (Gitlab.encoding (body answer2)).
    unfold Gitlab.newBuffer, Buffer.fromBase64.
    rewrite (sextets_skips_whitespace a b c Hc). reflexivity.
Qed.

Lemma getFileContents_ignores_whitespace_witness :
  isWhitespace "010"%char = true
  /\ fst (Gitlab.getFileContents sampleConfig
            (serves (mkResponse
                       (Gitlab.mkFileResponse "a.yaml" "files/a.yaml" 5 Gitlab.base64
                          ("aGVs" ++ String "010"%char "bG8=") "sha" "main" "blob" "commit" "last")
                       ""))
            (mkFileDescriptor "a.yaml" (Some "https://git.example.com/f")) emptyWorld)
     = fst (Gitlab.getFileContents sampleConfig (serves (mkResponse gitlabFile ""))
              (mkFileDescriptor "a.yaml" (Some "https://git.example.com/f")) emptyWorld).
Proof.
  split; [reflexivity|].
  apply (proj2 (getFileContents_ignores_whitespace sampleConfig
                  (mkFileDescriptor "a.yaml" (Some "https://git.example.com/f"))
                  "aGVs" "bG8=" "010"%char eq_refl)
           _ _ emptyWorld
           (mkResponse
              (Gitlab.mkFileResponse "a.yaml" "files/a.yaml" 5 Gitlab.base64
                 ("aGVs" ++ String "010"%char "bG8=") "sha" "main" "blob" "commit" "last") "")
           (mkResponse gitlabFile ""));
    try (intros req; reflexivity); reflexivity.
Defined.

(** ** The URL of a webhook on the three adapters *)

(** The GitLab hook data is built whenever the Jenkins URL holds a [://]. *)
Lemma gitlab_data_is_built (config : TypedGitRepoConfig) (options : CreateWebhook) :
  Js.includes (jenkinsUrlOrDefault options) "://" = true ->
  exists proto hst,
    Gitlab.execUrlPattern (jenkinsUrlOrDefault options) = Some (proto, hst).
Proof.
  intros Hin.
  destruct (Gitlab.execUrlPattern (jenkinsUrlOrDefault options)) as [[proto hst]|] eqn:He.
  - exists proto, hst. reflexivity.
  - apply execUrlPattern_none in He. rewrite He in Hin. discriminate Hin.
Qed.

(** C8, as amended.  A [webhookUrl] that is given and not empty is the URL of
    the hook on the GitHub-family and on the Bitbucket adapter, and on the
    GitLab adapter whenever the Jenkins URL (the one given, or the default)
    holds a [://].  Without a [webhookUrl]: GitHub's URL is the given
    [jenkinsUrl] followed by "/github-webhook/"; GitLab, for which a missing
    [jenkinsUrl] is "https://jenkins.local/", builds
    [protocol://], then [user:password@] when both are given and not empty,
    then [host], "/project/" and the given job name, from a Jenkins URL
    [protocol://host] on one line whose host holds no further [://] and does
    not end in a slash; and Bitbucket, whose hook URL is [webhookUrl] and
    nothing else, leaves the URL undefined. *)
Theorem webhook_url_derivation (config : TypedGitRepoConfig) (options : CreateWebhook) :
  ((forall u, webhookUrl options = Some u -> u <> "" ->
        Github.url (Github.config (Github.buildWebhookData options)) = u)
   /\ (webhookUrl options = None ->
       forall j, jenkinsUrl options = Some j ->
         Github.url (Github.config (Github.buildWebhookData options))
         = j ++ "/github-webhook/"))
  /\ Bitbucket.url (Bitbucket.buildWebhookData options) = webhookUrl options
  /\ (forall u, webhookUrl options = Some u -> u <> "" ->
        Js.includes (jenkinsUrlOrDefault options) "://" = true ->
        exists data,
          Gitlab.buildWebhookData config (Gitlab.assignParams config options) = Normal data
          /\ Gitlab.url data = u)
  /\ (jenkinsUrl options = None ->
      Gitlab.buildWebhookData config (Gitlab.assignParams config options)
      = Gitlab.buildWebhookData config
          (Gitlab.assignParams config (withJenkinsUrl options "https://jenkins.local/")))
  /\ (webhookUrl options = None ->
      forall proto hst job,
        jenkinsUrlOrDefault options = proto ++ "://" ++ hst ->
        singleLine proto = true ->
        singleLine hst = true ->
        Js.includes hst "://" = false ->
        endsWithSlash hst = false ->
        jobName options = Some job ->
        exists data,
          Gitlab.buildWebhookData config (Gitlab.assignParams config options) = Normal data
          /\ Gitlab.url data
             = proto ++ "://" ++ credentialsPart options ++ hst ++ "/project/" ++ job).
Proof.
  split; [split|split; [|split; [|split]]].
  - intros u Hu Hne. unfold Github.buildWebhookData. simpl.
    rewrite Hu. rewrite (truthy_Some u Hne). reflexivity.
  - intros Hnone j Hj. unfold Github.buildWebhookData. simpl.
    rewrite Hnone, Hj. reflexivity.
  - reflexivity.
  - intros u Hu Hne Hin.
    destruct (gitlab_data_is_built config options Hin) as [proto [hst He]].
    unfold Gitlab.buildWebhookData.
    change (match Gitlab.p_jenkinsUrl (Gitlab.assignParams config options) with
            | Some u => u
            | None => "https://jenkins.local/"
            end) with (jenkinsUrlOrDefault options).
    rewrite He.
    cbn [Gitlab.assignParams Gitlab.p_webhookUrl].
    rewrite Hu, (truthy_Some u Hne).
    eexists. split; reflexivity.
  - intros Hnone. unfold Gitlab.buildWebhookData, Gitlab.assignParams, withJenkinsUrl.
    cbn [Gitlab.p_jenkinsUrl Gitlab.p_jenkinsUser Gitlab.p_jenkinsPassword
         Gitlab.p_webhookUrl Gitlab.p_jobName
         webhookUrl jenkinsUrl jenkinsUser jenkinsPassword jobName].
    rewrite Hnone. reflexivity.
  - intros Hnone proto hst job Hurl Hp Hh Hrest _ Hjob.
    unfold Gitlab.buildWebhookData.
    change (match Gitlab.p_jenkinsUrl (Gitlab.assignParams config options) with
            | Some u => u
            | None => "https://jenkins.local/"
            end) with (jenkinsUrlOrDefault options).
    rewrite Hurl, (execUrlPattern_url proto hst Hp Hh Hrest).
    cbn [Gitlab.assignParams Gitlab.p_jenkinsUser Gitlab.p_jenkinsPassword
         Gitlab.p_webhookUrl Gitlab.p_jobName].
    rewrite (gitlab_credentials options), Hnone, Hjob.
    eexists. split; reflexivity.
Qed.

Lemma webhook_url_derivation_witness :
  webhookUrl (mkCreateWebhook None (Some "http://jenkins.example.com")
                (Some "bob") (Some "pw") (Some "build")) = None
  /\ jenkinsUrlOrDefault (mkCreateWebhook None (Some "http://jenkins.example.com")
                            (Some "bob") (Some "pw") (Some "build"))
     = "http" ++ "://" ++ "jenkins.example.com"
  /\ singleLine "http" = true
  /\ singleLine "jenkins.example.com" = true
  /\ Js.includes "jenkins.example.com" "://" = false
  /\ endsWithSlash "jenkins.example.com" = false
  /\ exists data,
       Gitlab.buildWebhookData sampleConfig
         (Gitlab.assignParams sampleConfig
            (mkCreateWebhook None (Some "http://jenkins.example.com")
               (Some "bob") (Some "pw") (Some "build")))
       = Normal data
       /\ Gitlab.url data
          = "http" ++ "://" ++ "bob:pw@" ++ "jenkins.example.com" ++ "/project/" ++ "build".
Proof.
  repeat (split; [reflexivity|]).
  apply (proj2 (proj2 (proj2 (proj2
           (webhook_url_derivation sampleConfig
              (mkCreateWebhook None (Some "http://jenkins.example.com")
                 (Some "bob") (Some "pw") (Some "build"))))))
           eq_refl "http" "jenkins.example.com" "build"); reflexivity.
Defined.

(** C8 as it stands fails.  On Bitbucket a missing [webhookUrl] leaves the
    URL undefined, whatever [jenkinsUrl] is.  On GitLab a [webhookUrl] does
    not help when [jenkinsUrl] has no [://]: the building of the data throws.
    An empty [webhookUrl] counts as none: GitHub then derives the URL from
    [jenkinsUrl].  And on GitLab the URL that is built is not
    [protocol://host/project/jobName] when the host ends in a slash, as that
    of the default Jenkins URL does, when the Jenkins URL holds a second
    [://], or when it is not on one line. *)
Lemma webhook_url_not_always_derived :
  Bitbucket.url
    (Bitbucket.buildWebhookData
       (mkCreateWebhook None (Some "https://jenkins.example.com") None None (Some "build")))
  = None
  /\ Gitlab.buildWebhookData sampleConfig
       (Gitlab.assignParams sampleConfig
          (mkCreateWebhook (Some "https://ci.example.com/hook") (Some "jenkins.local")
             None None None))
     = Throw (TypeError "Cannot read properties of null (reading '1')")
  /\ Github.url
       (Github.config
          (Github.buildWebhookData
             (mkCreateWebhook (Some "") (Some "https://jenkins.example.com") None None None)))
     = "https://jenkins.example.com/github-webhook/"
  /\ (exists data,
         Gitlab.buildWebhookData sampleConfig
           (Gitlab.assignParams sampleConfig
              (mkCreateWebhook None None None None (Some "build")))
         = Normal data
         /\ Gitlab.url data = "https://jenkins.local//project/build"
         /\ Gitlab.url data <> "https://jenkins.local/project/build")
  /\ (exists data,
         Gitlab.buildWebhookData sampleConfig
           (Gitlab.assignParams sampleConfig
              (mkCreateWebhook None (Some "http://a://b") (Some "bob") (Some "pw")
                 (Some "build")))
         = Normal data
         /\ Gitlab.url data = "http://a://bob:pw@b/project/build"
         /\ Gitlab.url data <> "http://bob:pw@a://b/project/build")
  /\ (exists data,
         Gitlab.buildWebhookData sampleConfig
           (Gitlab.assignParams sampleConfig
              (mkCreateWebhook None (Some ("x" ++ String "010"%char "http://h")) None None
                 (Some "build")))
         = Normal data
         /\ Gitlab.url data = "http://h/project/build"
         /\ Gitlab.url data <> ("x" ++ String "010"%char "http://h") ++ "/project/build").
Proof.
  split; [reflexivity|]. split; [reflexivity|]. split; [reflexivity|].
  split; [|split]; eexists; (split; [reflexivity|]); (split; [reflexivity | discriminate]).
Qed.
